(** * DataViz sales dashboard: the data pipeline of [update_dashboard]

    A shallow embedding of the computations of [app.py]: the filter of the
    callback [update_dashboard], the KPI figures, the daily series with its
    rolling average, the grouped rankings, the cancellation cross table, the
    state by category pivot and the promotion comparison.

    Conventions of the embedding.
    - A [DataFrame] of orders is a list of rows in index order.
    - [Sale_Amount] is [option Q]: [None] is NaN, which the pandas reductions
      [sum] and [mean] skip.  Amounts are exact rationals; rounding of binary
      floating point is outside the model.
    - [Order_Date] is a pandas timestamp, nanoseconds since the epoch.
    - A date bound of the callback is [None] when the date picker gives
      [None] or the empty string (both falsy in Python) and [Some t] when
      [pd.to_datetime] gives the timestamp [t].
    - Python's [/] on numbers raises on a zero divisor: it is [truediv], in
      the exception monad [option].
    - Only the tables behind the figures are modelled, not the figures; the
      bubble chart of cancellations by state and the monthly bar chart, which
      read the unfiltered table, are left out but for the column the latter
      adds to the base table.
    - [sort_values] runs numpy's quicksort, the default sort kind.  On a
      column of at most 17 rows that is an insertion sort, which leaves rows
      of equal value in frame order; on a longer column the rows are
      partitioned first and the order of rows of equal value is not
      specified.  The unspecified part is a parameter of the model, the
      class [Quicksort]; what is proved holds for every instance of it. *)

From Stdlib Require Import List String Ascii ZArith QArith Lia Bool Arith.
From Stdlib Require Import Sorting.Sorted Sorting.Permutation.
From Stdlib Require Import Structures.OrdersEx.
Import ListNotations.

Local Open Scope Z_scope.

(** ** Ordered keys

    [groupby], [unstack] and [pivot] put their keys in ascending order; the
    keys of this program are strings, dates, booleans and pairs of keys. *)

Class KeyOrd (K : Type) : Type := { cmp : K -> K -> comparison }.

Definition klt {K} `{KeyOrd K} (x y : K) : Prop := cmp x y = Lt.

Definition keqb {K} `{KeyOrd K} (x y : K) : bool :=
  match cmp x y with Eq => true | _ => false end.

#[export] Instance KeyOrd_Z : KeyOrd Z := {| cmp := Z.compare |}.

#[export] Instance KeyOrd_string : KeyOrd string :=
  {| cmp := String_as_OT.compare |}.

#[export] Instance KeyOrd_bool : KeyOrd bool := {| cmp := Bool.compare |}.

(** ** Sorted distinct keys *)

Section UniqueSorted.
Context {K : Type} `{KeyOrd K}.

Fixpoint insert_key (k : K) (l : list K) : list K :=
  match l with
  | [] => [k]
  | x :: t =>
      match cmp k x with
      | Lt => k :: l
      | Eq => l
      | Gt => x :: insert_key k t
      end
  end.

(** The distinct values of a key column, ascending. *)
Definition unique_sorted (ks : list K) : list K :=
  fold_right insert_key [] ks.

End UniqueSorted.

(** ** The table of orders *)

Record Order : Type := {
  Order_ID : string;
  Order_Date : Z;
  Order_Status : string;
  Sale_Amount : option Q;
  Product_Category : string;
  Fulfillment_Type : string;
  Shipping_State : string;
  Business_to_Business : bool;
  Promotion_IDs : option string;
  Month_Name : option string
}.

Definition DataFrame : Type := list Order.

(** [len(df)] *)
Definition len (df : DataFrame) : nat := List.length df.

(** [df[col].sum()]: NaN cells are skipped, the empty sum is 0. *)
Definition amount (r : Order) : Q :=
  match Sale_Amount r with Some q => q | None => 0%Q end.

Definition col_sum (df : DataFrame) : Q :=
  fold_right (fun r acc => (amount r + acc)%Q) 0%Q df.

(** [df[col].count()] of the amount column: the cells that are not NaN. *)
Definition col_count (df : DataFrame) : nat :=
  List.length (filter (fun r => match Sale_Amount r with Some _ => true | None => false end) df).

Definition Qnat (n : nat) : Q := inject_Z (Z.of_nat n).

(** [df[col].mean()]: the mean of the cells that are not NaN, NaN if none. *)
Definition col_mean (df : DataFrame) : option Q :=
  match col_count df with
  | O => None
  | S _ => Some (col_sum df / Qnat (col_count df))%Q
  end.

Definition is_cancelled (r : Order) : bool :=
  String.eqb (Order_Status r) "Cancelled"%string.

(** ** Python arithmetic that can raise *)

Definition bind {A B : Type} (m : option A) (f : A -> option B) : option B :=
  match m with Some a => f a | None => None end.

Notation "x <- m ;; k" := (bind m (fun x => k))
  (at level 61, m at next level, right associativity).

(** [a / b]: ZeroDivisionError on a zero divisor. *)
Definition truediv (a b : Q) : option Q :=
  if Qeq_bool b 0 then None else Some (a / b)%Q.

(** ** Filter (lines 450-462) *)

(** Truthiness of the dropdown value: [None] and the empty string are falsy. *)
Definition truthy (s : option string) : bool :=
  match s with
  | Some v => negb (String.eqb v EmptyString)
  | None => false
  end.

Definition filter_dates (start_date end_date : option Z) (df : DataFrame) : DataFrame :=
  match start_date, end_date with
  | Some s, Some e =>
      filter (fun r => (s <=? Order_Date r) && (Order_Date r <=? e)) df
  | _, _ => df
  end.

Definition filter_category (selected_category : option string) (df : DataFrame) : DataFrame :=
  match selected_category with
  | Some c =>
      if truthy selected_category && negb (String.eqb c "All Categories"%string)
      then filter (fun r => String.eqb (Product_Category r) c) df
      else df
  | None => df
  end.

Definition filtered_data (amazon_sales_data : DataFrame)
    (start_date end_date : option Z) (selected_category : option string) : DataFrame :=
  filter_category selected_category (filter_dates start_date end_date amazon_sales_data).

Definition not_cancelled (df : DataFrame) : DataFrame :=
  filter (fun r => negb (is_cancelled r)) df.

Definition filtered_non_cancelled (amazon_sales_data : DataFrame)
    (start_date end_date : option Z) (selected_category : option string) : DataFrame :=
  not_cancelled (filtered_data amazon_sales_data start_date end_date selected_category).

(** ** KPI figures (lines 473-477) *)

Record Kpi : Type := {
  total_orders : nat;
  total_revenue : Q;
  cancellation_rate : Q;
  avg_order_value : Q
}.

Definition kpi_cards (filtered filtered_nc : DataFrame) : option Kpi :=
  let total_orders := len filtered in
  let total_revenue := col_sum filtered_nc in
  let cancelled_orders := len (filter is_cancelled filtered) in
  cancellation_rate <-
    (if (0 <? total_orders)%nat
     then q <- truediv (Qnat cancelled_orders) (Qnat total_orders) ;; Some (q * 100)%Q
     else Some 0%Q) ;;
  avg_order_value <-
    (if (0 <? len filtered_nc)%nat
     then truediv total_revenue (Qnat (len filtered_nc))
     else Some 0%Q) ;;
  Some {| total_orders := total_orders;
          total_revenue := total_revenue;
          cancellation_rate := cancellation_rate;
          avg_order_value := avg_order_value |}.

(** ** Pairs of keys, for [groupby] on two columns *)

Definition cmp_pair {K1 K2} `{KeyOrd K1} `{KeyOrd K2} (a b : K1 * K2) : comparison :=
  match cmp (fst a) (fst b) with
  | Eq => cmp (snd a) (snd b)
  | c => c
  end.

#[export] Instance KeyOrd_pair {K1 K2} `{KeyOrd K1} `{KeyOrd K2} : KeyOrd (K1 * K2) :=
  {| cmp := cmp_pair |}.

(** ** [groupby] *)

Section GroupBy.
Context {K : Type} `{KeyOrd K}.

(** The rows of one group, in frame order. *)
Definition group_rows (key : Order -> K) (df : DataFrame) (k : K) : DataFrame :=
  filter (fun r => keqb (key r) k) df.

(** [df.groupby(key)]: one group per distinct key, keys ascending. *)
Definition groupby (key : Order -> K) (df : DataFrame) : list (K * DataFrame) :=
  map (fun k => (k, group_rows key df k)) (unique_sorted (map key df)).

(** [.size()] *)
Definition groupby_size (key : Order -> K) (df : DataFrame) : list (K * nat) :=
  map (fun g => (fst g, len (snd g))) (groupby key df).

End GroupBy.

(** [.agg({'Sale_Amount': 'sum', 'Order_ID': 'count'}).reset_index()]; an
    order always has its [Order_ID], so the count is the size of the group. *)
Record SalesRow (K : Type) : Type := {
  sales_key : K;
  sales_Order_ID : nat;
  sales_Sale_Amount : Q
}.
Arguments sales_key {K} _.
Arguments sales_Order_ID {K} _.
Arguments sales_Sale_Amount {K} _.

Definition agg_sales {K} `{KeyOrd K} (key : Order -> K) (df : DataFrame) : list (SalesRow K) :=
  map (fun g => {| sales_key := fst g;
                   sales_Order_ID := len (snd g);
                   sales_Sale_Amount := col_sum (snd g) |})
      (groupby key df).

(** ** [sort_values] and [head]

    [sort_values(col)] takes numpy's [argsort] of the column with the
    default kind, quicksort; [sort_values(col, ascending=False)] reverses
    the column, takes the same ascending argsort and reverses the result.

    Quicksort partitions while a range has more than [SMALL_QUICKSORT] + 1
    rows and finishes every range by insertion.  A column of at most 17 rows
    is therefore sorted by insertion alone, and rows of equal value keep the
    order they came in.  On a longer column the partitioning moves rows of
    equal value past each other; [partition_order] is the arrangement it
    leaves the rows in, of which the model knows no more than that it is a
    rearrangement of the column. *)

Class Quicksort : Type := {
  partition_order : forall A : Type, (A -> Q) -> list A -> list A;
  partition_order_perm :
    forall (A : Type) (by_ : A -> Q) (l : list A),
      Permutation (partition_order A by_ l) l
}.

Definition SMALL_QUICKSORT : nat := 16.

Section SortValues.
Context {qs : Quicksort} {A : Type} (by_ : A -> Q).

Fixpoint insert_asc (x : A) (l : list A) : list A :=
  match l with
  | [] => [x]
  | y :: t => if Qle_bool (by_ x) (by_ y) then x :: l else y :: insert_asc x t
  end.

(** Insertion sort: ascending, rows of equal value in the order of [l]. *)
Definition insertion_argsort (l : list A) : list A := fold_right insert_asc [] l.

(** [argsort(kind='quicksort')] *)
Definition argsort (l : list A) : list A :=
  if (List.length l - 1 <=? SMALL_QUICKSORT)%nat
  then insertion_argsort l
  else insertion_argsort (partition_order A by_ l).

Definition sort_values_asc (l : list A) : list A := argsort l.

Definition sort_values_desc (l : list A) : list A := rev (argsort (rev l)).

End SortValues.

(** [df.head(n)] *)
Definition head {A : Type} (n : nat) (l : list A) : list A := firstn n l.

(** ** Rolling mean

    [Series.rolling(window, min_periods).mean()] as pandas computes it for a
    fixed window: window [i] covers the positions from [window_start] up to
    [window_end], and a running state is updated by removing the values that
    leave the window and adding those that enter it. *)

Record MeanState : Type := { nobs : nat; sum_x : Q }.

Definition mean_init : MeanState := {| nobs := 0; sum_x := 0 |}.

Definition add_mean (val : Q) (st : MeanState) : MeanState :=
  {| nobs := S (nobs st); sum_x := (sum_x st + val)%Q |}.

Definition remove_mean (val : Q) (st : MeanState) : MeanState :=
  {| nobs := pred (nobs st); sum_x := (sum_x st - val)%Q |}.

Definition calc_mean (minp : nat) (st : MeanState) : option Q :=
  if ((minp <=? nobs st) && (0 <? nobs st))%nat
  then Some (sum_x st / Qnat (nobs st))%Q
  else None.

Definition window_start (window i : nat) : nat := (i + 1 - window)%nat.

Definition window_end (n i : nat) : nat := Nat.min (i + 1) n.

(** [for j in range(lo, hi): st = f(values[j], st)] *)
Definition for_range (values : list Q) (lo hi : nat)
    (f : Q -> MeanState -> MeanState) (st : MeanState) : MeanState :=
  fold_left (fun acc j => f (nth j values 0%Q) acc) (seq lo (hi - lo)) st.

Fixpoint roll_mean_loop (values : list Q) (window minp : nat)
    (todo i : nat) (st : MeanState) : list (option Q) :=
  match todo with
  | O => []
  | S todo' =>
      let n := List.length values in
      let s := window_start window i in
      let e := window_end n i in
      let st' :=
        if ((i =? 0) || (window_end n (i - 1) <=? s))%nat
        then for_range values s e add_mean mean_init
        else for_range values (window_end n (i - 1)) e add_mean
               (for_range values (window_start window (i - 1)) s remove_mean st) in
      calc_mean minp st' :: roll_mean_loop values window minp todo' (S i) st'
  end.

Definition rolling_mean (window minp : nat) (values : list Q) : list (option Q) :=
  roll_mean_loop values window minp (List.length values) 0 mean_init.

(** ** Daily series (lines 529-534) *)

Definition ns_per_day : Z := 86400 * 1000000000.

(** [Order_Date.dt.date], as a day number *)
Definition dt_date (t : Z) : Z := t / ns_per_day.

Record DailyRow : Type := {
  daily_Order_Date : Z;
  daily_Order_ID : nat;
  daily_Sale_Amount : Q;
  daily_Rolling_Avg : option Q
}.

Definition daily_groups (filtered : DataFrame) : list (SalesRow Z) :=
  agg_sales (fun r => dt_date (Order_Date r)) filtered.

Definition daily_sales (filtered : DataFrame) : list DailyRow :=
  let g := daily_groups filtered in
  map (fun p => {| daily_Order_Date := sales_key (fst p);
                   daily_Order_ID := sales_Order_ID (fst p);
                   daily_Sale_Amount := sales_Sale_Amount (fst p);
                   daily_Rolling_Avg := snd p |})
      (combine g (rolling_mean 7 1 (map sales_Sale_Amount g))).

(** ** Rankings (lines 578-583, 597-600, 612-618) *)

Definition rank_sales {qs : Quicksort} (key : Order -> string) (top_n : nat) (view : DataFrame)
  : list (SalesRow string) :=
  head top_n (sort_values_desc sales_Sale_Amount (agg_sales key view)).

Definition category_sales {qs : Quicksort} (filtered_nc : DataFrame) : list (SalesRow string) :=
  rank_sales Product_Category 10 filtered_nc.

Definition fulfillment_data (filtered_nc : DataFrame) : list (SalesRow string) :=
  agg_sales Fulfillment_Type filtered_nc.

Definition state_sales_top {qs : Quicksort} (filtered_nc : DataFrame) : list (SalesRow string) :=
  rank_sales Shipping_State 10 filtered_nc.


(** ** Frames indexed by two keys: [unstack], [pivot], [fillna] *)

Record Frame (V : Type) : Type := {
  index : list string;
  columns : list string;
  values : list (list V)
}.
Arguments index {V} _.
Arguments columns {V} _.
Arguments values {V} _.

Definition lookup {K V : Type} `{KeyOrd K} (k : K) (l : list (K * V)) : option V :=
  match find (fun p => keqb (fst p) k) l with
  | Some p => Some (snd p)
  | None => None
  end.

(** A long table keyed by (row, column) made wide: row and column labels
    ascending, a cell without entry is NaN ([None]). *)
Definition pivot {V : Type} (long : list ((string * string) * V)) : Frame (option V) :=
  let idx := unique_sorted (map (fun p => fst (fst p)) long) in
  let cols := unique_sorted (map (fun p => snd (fst p)) long) in
  {| index := idx;
     columns := cols;
     values := map (fun i => map (fun c => lookup (i, c) long) cols) idx |}.

Definition fillna {V : Type} (v : V) (f : Frame (option V)) : Frame V :=
  {| index := index f;
     columns := columns f;
     values := map (map (fun c => match c with Some x => x | None => v end)) (values f) |}.

(** [.unstack(fill_value=v)] of a series keyed by pairs *)
Definition unstack {V : Type} (fill_value : V) (long : list ((string * string) * V)) : Frame V :=
  fillna fill_value (pivot long).

Fixpoint position (s : string) (l : list string) : nat :=
  match l with
  | [] => O
  | x :: t => if String.eqb x s then O else S (position s t)
  end.

(** The cell at row label [i] and column label [c]. *)
Definition cell {V : Type} (d : V) (f : Frame V) (i c : string) : V :=
  nth (position c (columns f)) (nth (position i (index f)) (values f) []) d.

(** [s in l], [Series.isin(l)] *)
Definition isin (s : string) (l : list string) : bool := existsb (String.eqb s) l.

(** ** Cancellation analysis (lines 690-768) *)

(** The wide table [plot_data]: one row per category.  The percentage is
    the value before [.round(2)]. *)
Record CancelRow : Type := {
  cancel_Product_Category : string;
  cancel_Cancelled : nat;
  cancel_Not_Cancelled : nat;
  cancel_Total_Orders : nat;
  cancel_Cancelled_pct : Q
}.

(** The text on a bar: [PercentLabel q] is the text of [q] rounded to two
    decimals and followed by a percent sign, [NoLabel] the empty text. *)
Inductive BarLabel : Type :=
| PercentLabel (pct : Q)
| NoLabel.

(** [count_data], [label_data] and [final_data]: the long tables of the
    chart, one row per category and status. *)
Record CountRow : Type := {
  count_Product_Category : string;
  count_Total_Orders : nat;
  count_Status : string;
  count_Count : nat
}.

Record LabelRow : Type := {
  label_Product_Category : string;
  label_Status : string;
  label_Label : BarLabel
}.

Record FinalRow : Type := {
  final_Product_Category : string;
  final_Total_Orders : nat;
  final_Status : string;
  final_Count : nat;
  final_Label : BarLabel
}.

(** Either the placeholder figure "No cancellation data available" or the
    volume chart, given by the table [final_data] it is drawn from. *)
Inductive CancelChart : Type :=
| NoCancellationData
| CancelVolume (final_data : list FinalRow).

Definition cancel_by_category (filtered : DataFrame) : Frame nat :=
  unstack O (groupby_size (fun r => (Product_Category r, Order_Status r)) filtered).

Definition plot_data (cbc : Frame nat) : list CancelRow :=
  map (fun p =>
         let total := fold_right Nat.add O (snd p) in
         let cancelled := nth (position "Cancelled"%string (columns cbc)) (snd p) O in
         {| cancel_Product_Category := fst p;
            cancel_Cancelled := cancelled;
            cancel_Not_Cancelled := (total - cancelled)%nat;
            cancel_Total_Orders := total;
            cancel_Cancelled_pct := (Qnat cancelled / Qnat total * 100)%Q |})
      (combine (index cbc) (values cbc)).

(** [plot_data.melt(id_vars=['Product_Category', 'Total_Orders'],
    value_vars=['Cancelled', 'Not_Cancelled'], ...)]: the rows of the first
    value column, then those of the second. *)
Definition count_data (pd : list CancelRow) : list CountRow :=
  map (fun r => {| count_Product_Category := cancel_Product_Category r;
                   count_Total_Orders := cancel_Total_Orders r;
                   count_Status := "Cancelled"%string;
                   count_Count := cancel_Cancelled r |}) pd
  ++ map (fun r => {| count_Product_Category := cancel_Product_Category r;
                      count_Total_Orders := cancel_Total_Orders r;
                      count_Status := "Not_Cancelled"%string;
                      count_Count := cancel_Not_Cancelled r |}) pd.

(** The melt of the two label columns, with ["_Label"] taken off the
    status names. *)
Definition label_data (pd : list CancelRow) : list LabelRow :=
  map (fun r => {| label_Product_Category := cancel_Product_Category r;
                   label_Status := "Cancelled"%string;
                   label_Label := PercentLabel (cancel_Cancelled_pct r) |}) pd
  ++ map (fun r => {| label_Product_Category := cancel_Product_Category r;
                      label_Status := "Not_Cancelled"%string;
                      label_Label := NoLabel |}) pd.

(** [count_data.merge(label_data, on=['Product_Category', 'Status'])]: the
    inner join, in the order of the left table. *)
Definition merge_on (cd : list CountRow) (ld : list LabelRow) : list FinalRow :=
  flat_map
    (fun c =>
       map (fun l => {| final_Product_Category := count_Product_Category c;
                        final_Total_Orders := count_Total_Orders c;
                        final_Status := count_Status c;
                        final_Count := count_Count c;
                        final_Label := label_Label l |})
           (filter (fun l =>
                      String.eqb (label_Product_Category l) (count_Product_Category c)
                      && String.eqb (label_Status l) (count_Status c))
                   ld))
    cd.

Definition cancel_chart {qs : Quicksort} (filtered : DataFrame) : CancelChart :=
  let cbc := cancel_by_category filtered in
  if isin "Cancelled"%string (columns cbc) then
    let pd := plot_data cbc in
    CancelVolume
      (sort_values_desc (fun r => Qnat (final_Total_Orders r))
         (merge_on (count_data pd) (label_data pd)))
  else NoCancellationData.

(** ** State by category pivot (lines 828-880) *)

Definition state_category_orders (view : DataFrame) : list ((string * string) * nat) :=
  groupby_size (fun r => (Shipping_State r, Product_Category r)) view.

Definition total_orders_per_state (view : DataFrame) : list (string * nat) :=
  groupby_size Shipping_State view.

Definition top_states {qs : Quicksort} (view : DataFrame) : list (string * nat) :=
  sort_values_desc (fun p => Qnat (snd p)) (total_orders_per_state view).

Definition top_n_states_list {qs : Quicksort} (N : nat) (view : DataFrame) : list string :=
  map fst (head N (top_states view)).

Definition state_category_orders_filtered {qs : Quicksort} (N : nat) (view : DataFrame)
  : list ((string * string) * nat) :=
  filter (fun p => isin (fst (fst p)) (top_n_states_list N view))
         (state_category_orders view).

Definition heatmap_data {qs : Quicksort} (N : nat) (view : DataFrame) : Frame nat :=
  fillna O (pivot (state_category_orders_filtered N view)).

(** The long table of the stacked bar chart: the state column is made an
    ordered categorical over [top_n_states_list] and the table sorted on it. *)
Definition stacked_bar_data {qs : Quicksort} (N : nat) (view : DataFrame) : list ((string * string) * nat) :=
  sort_values_asc
    (fun p => Qnat (position (fst (fst p)) (top_n_states_list N view)))
    (state_category_orders_filtered N view).

(** ** Promotion impact (lines 902-911) *)

(** [Promotion_IDs.notna()] *)
Definition has_promo (r : Order) : bool :=
  match Promotion_IDs r with Some _ => true | None => false end.

Record PromoRow : Type := {
  promo_Promotion_IDs : bool;
  promo_Total_Sales : Q;
  promo_Average_Order_Value : option Q;
  promo_Order_Count : nat;
  promo_Promotion : string
}.

Definition promo_impact (filtered_nc : DataFrame) : list PromoRow :=
  map (fun g => {| promo_Promotion_IDs := fst g;
                   promo_Total_Sales := col_sum (snd g);
                   promo_Average_Order_Value := col_mean (snd g);
                   promo_Order_Count := len (snd g);
                   promo_Promotion := if fst g then "With Promotion"%string
                                      else "No Promotion"%string |})
      (groupby has_promo filtered_nc).

(** ** Month names (lines 950-954) *)

(** The month, 1 to 12, of a day number counted from 1970-01-01. *)
Definition month_of_day (d : Z) : Z :=
  let z := d + 719468 in
  let era := z / 146097 in
  let doe := z - era * 146097 in
  let yoe := (doe - doe / 1460 + doe / 36524 - doe / 146096) / 365 in
  let doy := doe - (365 * yoe + yoe / 4 - yoe / 100) in
  let mp := (5 * doy + 2) / 153 in
  if mp <? 10 then mp + 3 else mp - 9.

Definition month_names : list string :=
  ["January"; "February"; "March"; "April"; "May"; "June"; "July"; "August";
   "September"; "October"; "November"; "December"]%string.

(** [Order_Date.dt.strftime('%B')] *)
Definition strftime_B (t : Z) : string :=
  nth (Z.to_nat (month_of_day (dt_date t) - 1)) month_names EmptyString.

(** [amazon_sales_data['Month_Name'] = ...] on one row *)
Definition set_Month_Name (r : Order) : Order :=
  {| Order_ID := Order_ID r;
     Order_Date := Order_Date r;
     Order_Status := Order_Status r;
     Sale_Amount := Sale_Amount r;
     Product_Category := Product_Category r;
     Fulfillment_Type := Fulfillment_Type r;
     Shipping_State := Shipping_State r;
     Business_to_Business := Business_to_Business r;
     Promotion_IDs := Promotion_IDs r;
     Month_Name := Some (strftime_B (Order_Date r)) |}.

(** ** The module state and the callback *)

(** The module-level variables of [app.py].  The two filtered frames are
    declared [global] inside the callback and do not exist before its first
    run. *)
Record Store : Type := {
  amazon_sales_data : DataFrame;
  non_cancelled_orders : DataFrame;
  amazon_sales_data_filtered : option DataFrame;
  non_cancelled_orders_filtered : option DataFrame
}.

(** [load_and_preprocess_data], from the parsed report.  The non-cancelled
    table is taken before the [Week], [Month] and [Day] columns are added to
    the full table; the callback reads none of the three and they are left
    out. *)
Definition load_and_preprocess_data (report : DataFrame) : Store :=
  {| amazon_sales_data := report;
     non_cancelled_orders := not_cancelled report;
     amazon_sales_data_filtered := None;
     non_cancelled_orders_filtered := None |}.

(** The tables behind the figures the callback returns. *)
Record Bundle : Type := {
  out_kpi_cards : Kpi;
  out_daily_chart : list DailyRow;
  out_category_chart : list (SalesRow string);
  out_fulfillment_chart : list (SalesRow string);
  out_geo_chart : list (SalesRow string);
  out_heatmap_data : Frame nat;
  out_fig_stacked_bar : list ((string * string) * nat);
  out_cancel_chart : CancelChart;
  out_promo_chart : list PromoRow
}.

(** [update_dashboard]: the filter, the rebinding of the two global frames,
    the tables of the figures, then the assignment of [Month_Name] on the
    base table. *)
Definition update_dashboard {qs : Quicksort} (st : Store)
    (start_date end_date : option Z) (selected_category : option string)
  : option (Bundle * Store) :=
  let filtered := filtered_data (amazon_sales_data st) start_date end_date selected_category in
  let filtered_nc := not_cancelled filtered in
  let st1 := {| amazon_sales_data := amazon_sales_data st;
                non_cancelled_orders := non_cancelled_orders st;
                amazon_sales_data_filtered := Some filtered;
                non_cancelled_orders_filtered := Some filtered_nc |} in
  kpi <- kpi_cards filtered filtered_nc ;;
  let N := 15%nat in
  let out :=
    {| out_kpi_cards := kpi;
       out_daily_chart := daily_sales filtered;
       out_category_chart := category_sales filtered_nc;
       out_fulfillment_chart := fulfillment_data filtered_nc;
       out_geo_chart := state_sales_top filtered_nc;
       out_heatmap_data := heatmap_data N (non_cancelled_orders st1);
       out_fig_stacked_bar := stacked_bar_data N (non_cancelled_orders st1);
       out_cancel_chart := cancel_chart filtered;
       out_promo_chart := promo_impact filtered_nc |} in
  let st2 := {| amazon_sales_data := map set_Month_Name (amazon_sales_data st1);
                non_cancelled_orders := non_cancelled_orders st1;
                amazon_sales_data_filtered := amazon_sales_data_filtered st1;
                non_cancelled_orders_filtered := non_cancelled_orders_filtered st1 |} in
  Some (out, st2).


(** ** What the ordered keys satisfy *)

Class KeyOrdLaws (K : Type) `{KeyOrd K} : Prop := {
  cmp_eq : forall x y : K, cmp x y = Eq -> x = y;
  cmp_gt : forall x y : K, cmp x y = Gt -> cmp y x = Lt;
  cmp_irrefl : forall x : K, cmp x x <> Lt;
  cmp_trans : forall x y z : K, cmp x y = Lt -> cmp y z = Lt -> cmp x z = Lt
}.


(** ** Notions used to state the properties *)

Definition sum_of (l : list Q) : Q := fold_right Qplus 0%Q l.

(** ** Sample tables *)

(** A quicksort for the runs on sample tables.  They all have fewer than 18
    rows, so that the sort is by insertion and [partition_order] is never
    called. *)
Definition insertion_only : Quicksort :=
  {| partition_order := fun _ _ l => l;
     partition_order_perm := fun _ _ l => Permutation_refl l |}.

Definition order_on (t : Z) : Order :=
  {| Order_ID := "o1"; Order_Date := t; Order_Status := "Shipped";
     Sale_Amount := Some 100%Q; Product_Category := "Set";
     Fulfillment_Type := "Amazon"; Shipping_State := "KA";
     Business_to_Business := false; Promotion_IDs := None;
     Month_Name := None |}.


Definition order_of (cat state : string) (status : string) (amt : Q)
    (promo : option string) : Order :=
  {| Order_ID := "o"; Order_Date := 0; Order_Status := status;
     Sale_Amount := Some amt; Product_Category := cat;
     Fulfillment_Type := "Amazon"; Shipping_State := state;
     Business_to_Business := false; Promotion_IDs := promo;
     Month_Name := None |}.

(** Two shipped orders of one state, in two categories. *)
Definition two_categories : DataFrame :=
  [order_of "Set" "KA" "Shipped" 100 None; order_of "Top" "KA" "Shipped" 50 None].

(** The rows of [df] dated on day [d]. *)
Definition orders_on (d : Z) (df : DataFrame) : DataFrame :=
  filter (fun r => dt_date (Order_Date r) =? d) df.

(** The rows of [df] with or without a promotion. *)
Definition orders_promo (b : bool) (df : DataFrame) : DataFrame :=
  filter (fun r => Bool.eqb (has_promo r) b) df.

(** Two rows that differ at most in the [Month_Name] column. *)
Definition same_but_Month_Name (r r' : Order) : Prop :=
  Order_ID r' = Order_ID r /\ Order_Date r' = Order_Date r /\
  Order_Status r' = Order_Status r /\ Sale_Amount r' = Sale_Amount r /\
  Product_Category r' = Product_Category r /\
  Fulfillment_Type r' = Fulfillment_Type r /\
  Shipping_State r' = Shipping_State r /\
  Business_to_Business r' = Business_to_Business r /\
  Promotion_IDs r' = Promotion_IDs r.

(** The mean of a list of amounts. *)
Definition mean (l : list Q) : Q := (sum_of l / Qnat (List.length l))%Q.

(** [values[lo .. hi)] summed position by position. *)
Definition range_sum (values : list Q) (lo hi : nat) : Q :=
  sum_of (map (fun j => nth j values 0%Q) (seq lo (hi - lo))).

(** The running state of the rolling mean stands for the window at [i]. *)
Definition win_state (values : list Q) (window i : nat) (st : MeanState) : Prop :=
  nobs st = (window_end (List.length values) i - window_start window i)%nat /\
  (sum_x st == range_sum values (window_start window i)
                 (window_end (List.length values) i))%Q.

(** The order of a ranking as the program leaves it: revenue descending,
    with nothing said about groups of equal revenue. *)
Definition rank_order (x y : SalesRow string) : Prop :=
  (sales_Sale_Amount y <= sales_Sale_Amount x)%Q.

(** The order with the tie-break on the order count first. *)
Definition rank_order_by_count (x y : SalesRow string) : Prop :=
  (sales_Sale_Amount y < sales_Sale_Amount x)%Q \/
  ((sales_Sale_Amount x == sales_Sale_Amount y)%Q /\
   ((sales_Order_ID y < sales_Order_ID x)%nat \/
    (sales_Order_ID x = sales_Order_ID y /\ klt (sales_key x) (sales_key y)))).

(** Category "A" with one order of 10, category "B" with two orders of 5. *)
Definition tied_revenue : DataFrame :=
  [order_of "A" "KA" "Shipped" 10 None;
   order_of "B" "KA" "Shipped" 5 None;
   order_of "B" "KA" "Shipped" 5 None].

(** Ascending by value, rows of equal value by [R]. *)
Definition lex_asc {A : Type} (by_ : A -> Q) (R : A -> A -> Prop) (x y : A) : Prop :=
  (by_ x < by_ y)%Q \/ ((by_ x == by_ y)%Q /\ R x y).

(** Descending by value, rows of equal value by [R]. *)
Definition lex_desc {A : Type} (by_ : A -> Q) (R : A -> A -> Prop) (x y : A) : Prop :=
  (by_ y < by_ x)%Q \/ ((by_ x == by_ y)%Q /\ R x y).

(** The orders of [view] shipped to state [s] in category [c]. *)
Definition orders_of_cell (s c : string) (view : DataFrame) : DataFrame :=
  filter (fun r => String.eqb (Shipping_State r) s && String.eqb (Product_Category r) c)
         view.

(** State "B" with two orders, state "A" with one. *)
Definition ranked_states : DataFrame :=
  [order_of "Set" "B" "Shipped" 10 None;
   order_of "Set" "B" "Shipped" 10 None;
   order_of "Set" "A" "Shipped" 10 None].

(** ** The widgets of the layout (lines 304-325) *)

(** [Series.unique()]: the distinct values in order of first appearance. *)
Fixpoint unique (l : list string) : list string :=
  match l with
  | [] => []
  | x :: t => x :: filter (fun y => negb (String.eqb x y)) (unique t)
  end.

(** The values offered by the category dropdown. *)
Definition category_options (base : DataFrame) : list string :=
  unique (map Product_Category base).

(** [Series.min()] and [Series.max()]; NaT ([None]) on an empty column. *)
Definition series_min (l : list Z) : option Z :=
  match l with
  | [] => None
  | x :: t => Some (fold_right Z.min x t)
  end.

Definition series_max (l : list Z) : option Z :=
  match l with
  | [] => None
  | x :: t => Some (fold_right Z.max x t)
  end.

(** [t.date()] handed back to the callback and read by [pd.to_datetime]:
    midnight of the day of [t]. *)
Definition to_midnight (t : Z) : Z := dt_date t * ns_per_day.

(** The range the date picker starts with. *)
Definition picker_start_date (base : DataFrame) : option Z :=
  option_map to_midnight (series_min (map Order_Date base)).

Definition picker_end_date (base : DataFrame) : option Z :=
  option_map to_midnight (series_max (map Order_Date base)).

(** ** The chart builders over the unfiltered tables (lines 57-290) *)

Definition create_kpi_cards (st : Store) : option Kpi :=
  kpi_cards (amazon_sales_data st) (non_cancelled_orders st).

Definition create_daily_sales_chart (st : Store) : list DailyRow :=
  daily_sales (amazon_sales_data st).

Definition create_category_sales_chart {qs : Quicksort} (st : Store) : list (SalesRow string) :=
  head 10 (sort_values_desc sales_Sale_Amount
             (agg_sales Product_Category (non_cancelled_orders st))).

Definition create_fulfillment_pie_chart (st : Store) : list (SalesRow string) :=
  agg_sales Fulfillment_Type (non_cancelled_orders st).

Definition create_geographic_sales_map {qs : Quicksort} (st : Store) : list (SalesRow string) :=
  head 10 (sort_values_desc sales_Sale_Amount
             (agg_sales Shipping_State (non_cancelled_orders st))).

Record B2BRow : Type := {
  b2b_Business_to_Business : bool;
  b2b_Sale_Amount : Q;
  b2b_Order_ID : nat;
  b2b_Business_Type : string
}.

Definition create_b2b_b2c_comparison (st : Store) : list B2BRow :=
  map (fun g => {| b2b_Business_to_Business := sales_key g;
                   b2b_Sale_Amount := sales_Sale_Amount g;
                   b2b_Order_ID := sales_Order_ID g;
                   b2b_Business_Type := if sales_key g then "B2B"%string
                                        else "B2C"%string |})
      (agg_sales Business_to_Business (non_cancelled_orders st)).

Record CancelRateRow : Type := {
  rate_Product_Category : string;
  rate_Cancelled : nat;
  rate_Total : nat;
  rate_Cancellation_Rate : Q
}.

(** Either the placeholder figure or the ten categories of highest
    cancellation rate. *)
Inductive CancelRateChart : Type :=
| NoCancellationRates
| CancelRates (rows : list CancelRateRow).

Definition create_cancellation_analysis {qs : Quicksort} (st : Store) : CancelRateChart :=
  let cbc := cancel_by_category (amazon_sales_data st) in
  if isin "Cancelled"%string (columns cbc) then
    CancelRates
      (head 10
         (sort_values_desc rate_Cancellation_Rate
            (map (fun p =>
                    let total := fold_right Nat.add O (snd p) in
                    let cancelled :=
                      nth (position "Cancelled"%string (columns cbc)) (snd p) O in
                    {| rate_Product_Category := fst p;
                       rate_Cancelled := cancelled;
                       rate_Total := total;
                       rate_Cancellation_Rate := (Qnat cancelled / Qnat total * 100)%Q |})
                 (combine (index cbc) (values cbc)))))
  else NoCancellationRates.

Definition create_promo_impact_chart (st : Store) : list PromoRow :=
  promo_impact (non_cancelled_orders st).

(** ** Cancellations by state, inside the callback (lines 773-791)

    The table of the bubble chart, without its rounded percentage column. *)

Definition cancelled_orders_df (st : Store) : DataFrame :=
  filter is_cancelled (amazon_sales_data st).

Definition cancellations_by_state {qs : Quicksort} (st : Store) : list (string * nat) :=
  sort_values_desc (fun p => Qnat (snd p))
    (groupby_size Shipping_State (cancelled_orders_df st)).

Definition total_cancellations {qs : Quicksort} (st : Store) : nat :=
  fold_right Nat.add O (map snd (cancellations_by_state st)).

Definition top_cancellations {qs : Quicksort} (st : Store) : list (string * nat) :=
  head 10 (cancellations_by_state st).

(** ** Sessions *)

(** The stores a process goes through: the one built at start-up from the
    report, and the store any request leaves behind. *)
Inductive reachable {qs : Quicksort} (report : DataFrame) : Store -> Prop :=
| reach_load : reachable report (load_and_preprocess_data report)
| reach_request (st : Store) (start_date end_date : option Z)
    (selected_category : option string) (out : Bundle) (st' : Store) :
    reachable report st ->
    update_dashboard st start_date end_date selected_category = Some (out, st') ->
    reachable report st'.

(** ** Further notions used to state the properties *)

(** The orders of [view] shipped to state [s]. *)
Definition orders_of_state (s : string) (view : DataFrame) : DataFrame :=
  filter (fun r => String.eqb (Shipping_State r) s) view.

(** The orders of [df] in category [c]. *)
Definition orders_of_category (c : string) (df : DataFrame) : DataFrame :=
  filter (fun r => String.eqb (Product_Category r) c) df.

(** The sum of a list of counts. *)
Definition total (l : list nat) : nat := fold_right Nat.add O l.

(** All timestamps of the table are dates, without a time of day. *)
Definition date_only (base : DataFrame) : Prop :=
  Forall (fun r => Order_Date r mod ns_per_day = 0) base.

(** The orders of [df] whose two string columns [f] and [g] read [a], [b]. *)
Definition pair_rows (f g : Order -> string) (a b : string) (df : DataFrame) : DataFrame :=
  filter (fun r => String.eqb (f r) a && String.eqb (g r) b) df.

(** [fillna(0)] on one cell *)
Definition fill0 (c : option nat) : nat :=
  match c with Some n => n | None => O end.

(** ** The monthly chart of the two largest categories (lines 950-971) *)

(** [Series.value_counts()]: the distinct values with the number of their
    occurrences, put in descending order of that number by [sort_values]. *)
Definition value_counts {qs : Quicksort} (l : list string) : list (string * nat) :=
  sort_values_desc (fun p => Qnat (snd p))
    (map (fun k => (k, List.length (filter (String.eqb k) l))) (unique l)).

(** [Series.nlargest(n)]: the [n] largest entries in descending order,
    entries of equal value in the order of the series (keep='first'). *)
Definition nlargest (n : nat) (s : list (string * nat)) : list (string * nat) :=
  head n (rev (insertion_argsort (fun p => Qnat (snd p)) (rev s))).

Definition top_categories {qs : Quicksort} (base : DataFrame) : list string :=
  map fst (nlargest 2 (value_counts (map Product_Category base))).

Definition month_order : list string :=
  ["January"; "February"; "March"; "April"; "May"; "June"; "July"; "August";
   "September"; "October"; "November"; "December"]%string.

Definition Month_Name_notna (r : Order) : bool :=
  match Month_Name r with Some _ => true | None => false end.

Definition Month_Name_value (r : Order) : string :=
  match Month_Name r with Some m => m | None => EmptyString end.

(** The orders of the two largest categories, counted by month name and
    category ([groupby] leaves out the rows without month name), then put in
    the order of the calendar by making the month an ordered categorical. *)
Definition monthly_category_sales {qs : Quicksort} (base : DataFrame) : list ((string * string) * nat) :=
  let filtered :=
    filter (fun r => isin (Product_Category r) (top_categories base)) base in
  sort_values_asc
    (fun p => Qnat (position (fst (fst p)) month_order))
    (groupby_size (fun r => (Month_Name_value r, Product_Category r))
       (filter Month_Name_notna filtered)).

(** The table of the monthly chart: it is taken from the base table once
    the callback has set its [Month_Name] column. *)
Definition order_fig_data {qs : Quicksort} (st : Store) : list ((string * string) * nat) :=
  monthly_category_sales (map set_Month_Name (amazon_sales_data st)).

(** The orders of [df] in category [c] whose month is named [m]. *)
Definition orders_of_month (m c : string) (df : DataFrame) : DataFrame :=
  filter (fun r => String.eqb (strftime_B (Order_Date r)) m
                   && String.eqb (Product_Category r) c) df.

(** Category "C" with one order, "A" with one and "B" with two. *)
Definition three_categories : DataFrame :=
  order_of "C" "KA" "Shipped" 1 None :: tied_revenue.

(** The two bars of category [c] in the cancellation volume chart of the
    frame [df]. *)
Definition cancelled_bar (df : DataFrame) (c : string) : FinalRow :=
  let orders := orders_of_category c df in
  {| final_Product_Category := c;
     final_Total_Orders := List.length orders;
     final_Status := "Cancelled"%string;
     final_Count := List.length (filter is_cancelled orders);
     final_Label :=
       PercentLabel (Qnat (List.length (filter is_cancelled orders))
                     / Qnat (List.length orders) * 100)%Q |}.

Definition not_cancelled_bar (df : DataFrame) (c : string) : FinalRow :=
  let orders := orders_of_category c df in
  {| final_Product_Category := c;
     final_Total_Orders := List.length orders;
     final_Status := "Not_Cancelled"%string;
     final_Count := List.length (not_cancelled orders);
     final_Label := NoLabel |}.

(** * Properties *)

(** ** Key orders *)

#[export] Instance KeyOrdLaws_Z : KeyOrdLaws Z.
Proof.
  split; simpl.
  - apply Z.compare_eq.
  - intros x y E. apply Z.compare_gt_iff in E. apply Z.compare_lt_iff. exact E.
  - intros x. rewrite Z.compare_refl. discriminate.
  - intros x y z. rewrite !Z.compare_lt_iff. lia.
Qed.

#[export] Instance KeyOrdLaws_string : KeyOrdLaws string.
Proof.
  split; simpl.
  - intros x y E. destruct (String_as_OT.compare_spec x y); congruence.
  - intros x y E.
    destruct (String_as_OT.compare_spec x y) as [?|?|G]; try discriminate. exact G.
  - intros x E. exact (StrictOrder_Irreflexive (R := String_as_OT.lt) x E).
  - intros x y z E1 E2.
    exact (StrictOrder_Transitive (R := String_as_OT.lt) x y z E1 E2).
Qed.

#[export] Instance KeyOrdLaws_bool : KeyOrdLaws bool.
Proof.
  split; simpl.
  - intros [] []; simpl; congruence.
  - intros [] []; simpl; congruence.
  - intros []; simpl; congruence.
  - intros [] [] []; simpl; congruence.
Qed.

Section KeyOrdFacts.
Context {K : Type} `{KeyOrdLaws K}.

Lemma cmp_refl (x : K) : cmp x x = Eq.
Proof.
  destruct (cmp x x) eqn:E; [reflexivity | |].
  - exfalso. exact (cmp_irrefl x E).
  - exfalso. exact (cmp_irrefl x (cmp_gt x x E)).
Qed.

Lemma cmp_eq_iff (x y : K) : cmp x y = Eq <-> x = y.
Proof.
  split; [apply cmp_eq | intros ->; apply cmp_refl].
Qed.

Lemma keqb_eq (x y : K) : keqb x y = true <-> x = y.
Proof.
  unfold keqb. rewrite <- cmp_eq_iff. destruct (cmp x y); split; congruence.
Qed.

Lemma keqb_refl (x : K) : keqb x x = true.
Proof. apply keqb_eq. reflexivity. Qed.

Lemma keqb_neq (x y : K) : x <> y -> keqb x y = false.
Proof.
  intros N. destruct (keqb x y) eqn:E; [|reflexivity].
  apply keqb_eq in E. contradiction.
Qed.

Lemma klt_irrefl (x : K) : ~ klt x x.
Proof. exact (cmp_irrefl x). Qed.

Lemma klt_trans (x y z : K) : klt x y -> klt y z -> klt x z.
Proof. exact (cmp_trans x y z). Qed.

End KeyOrdFacts.

#[export] Instance KeyOrdLaws_pair {K1 K2 : Type} `{KeyOrdLaws K1} `{KeyOrdLaws K2} :
  KeyOrdLaws (K1 * K2).
Proof.
  split; simpl; unfold cmp_pair.
  - intros [a1 a2] [b1 b2]; simpl.
    destruct (cmp a1 b1) eqn:E1; try discriminate.
    intros E2. apply cmp_eq in E1. apply cmp_eq in E2. congruence.
  - intros [a1 a2] [b1 b2]; simpl.
    destruct (cmp a1 b1) eqn:E1; try discriminate.
    + apply cmp_eq in E1. subst b1. rewrite cmp_refl. apply cmp_gt.
    + intros _. apply cmp_gt in E1. rewrite E1. reflexivity.
  - intros [a1 a2]; simpl. rewrite cmp_refl. apply cmp_irrefl.
  - intros [a1 a2] [b1 b2] [c1 c2]; simpl.
    destruct (cmp a1 b1) eqn:E1; try discriminate;
      destruct (cmp b1 c1) eqn:E2; try discriminate; intros Ha Hb.
    + apply cmp_eq in E1, E2. subst. rewrite cmp_refl. eapply cmp_trans; eassumption.
    + apply cmp_eq in E1. subst. rewrite E2. reflexivity.
    + apply cmp_eq in E2. subst. rewrite E1. reflexivity.
    + rewrite (cmp_trans _ _ _ E1 E2). reflexivity.
Qed.

(** ** Sorted distinct keys and groups *)

Section UniqueSortedFacts.
Context {K : Type} `{KeyOrdLaws K}.

Lemma insert_key_In (k x : K) (l : list K) :
  In x (insert_key k l) <-> x = k \/ In x l.
Proof.
  induction l as [|y t IH]; simpl.
  - intuition.
  - destruct (cmp k y) eqn:E; simpl.
    + apply cmp_eq in E. subst y. intuition.
    + intuition.
    + rewrite IH. intuition.
Qed.

Lemma unique_sorted_In (x : K) (ks : list K) :
  In x (unique_sorted ks) <-> In x ks.
Proof.
  induction ks as [|k t IH]; simpl.
  - reflexivity.
  - rewrite insert_key_In, IH. intuition.
Qed.

Lemma insert_key_HdRel (a k : K) (l : list K) :
  klt a k -> HdRel klt a l -> HdRel klt a (insert_key k l).
Proof.
  intros Hak Hl. destruct l as [|y t]; simpl.
  - constructor. exact Hak.
  - destruct (cmp k y); constructor; try exact Hak; inversion Hl; assumption.
Qed.

Lemma insert_key_Sorted (k : K) (l : list K) :
  Sorted klt l -> Sorted klt (insert_key k l).
Proof.
  induction l as [|y t IH]; simpl; intros Hs.
  - repeat constructor.
  - destruct (cmp k y) eqn:E.
    + exact Hs.
    + constructor; [exact Hs | constructor; exact E].
    + inversion Hs as [|? ? Ht Hhd]; subst.
      constructor; [apply IH; exact Ht |].
      apply insert_key_HdRel; [apply cmp_gt; exact E | exact Hhd].
Qed.

Lemma unique_sorted_StronglySorted (ks : list K) :
  StronglySorted klt (unique_sorted ks).
Proof.
  apply Sorted_StronglySorted.
  - intros x y z. apply klt_trans.
  - induction ks as [|k t IH]; simpl; [constructor | apply insert_key_Sorted, IH].
Qed.

Lemma StronglySorted_klt_NoDup (l : list K) : StronglySorted klt l -> NoDup l.
Proof.
  induction 1 as [|a l Hs IH Hall]; constructor; [|exact IH].
  intros Hin. rewrite Forall_forall in Hall.
  exact (klt_irrefl a (Hall a Hin)).
Qed.

Lemma unique_sorted_NoDup (ks : list K) : NoDup (unique_sorted ks).
Proof. apply StronglySorted_klt_NoDup, unique_sorted_StronglySorted. Qed.

(** The keys of [groupby] are the sorted distinct keys of the frame. *)
Lemma groupby_keys (key : Order -> K) (df : DataFrame) :
  map fst (groupby key df) = unique_sorted (map key df).
Proof.
  unfold groupby. rewrite map_map. simpl. apply map_id.
Qed.

Lemma groupby_size_keys (key : Order -> K) (df : DataFrame) :
  map fst (groupby_size key df) = unique_sorted (map key df).
Proof.
  unfold groupby_size. rewrite map_map. simpl. apply groupby_keys.
Qed.

Lemma groupby_size_In (key : Order -> K) (df : DataFrame) (k : K) (n : nat) :
  In (k, n) (groupby_size key df) <->
  In k (map key df) /\ n = len (group_rows key df k).
Proof.
  unfold groupby_size, groupby. rewrite map_map. simpl. rewrite in_map_iff.
  split.
  - intros (k' & E & Hin). inversion E; subst.
    split; [apply unique_sorted_In; exact Hin | reflexivity].
  - intros (Hin & ->). exists k. split; [reflexivity |].
    apply unique_sorted_In. exact Hin.
Qed.

Lemma count_key_NoDup (x : K) (l : list K) :
  NoDup l -> In x l -> List.length (filter (keqb x) l) = 1%nat.
Proof.
  induction 1 as [|a l Hna Hnd IH]; simpl; [contradiction |].
  intros [-> | Hin].
  - rewrite keqb_refl. simpl. f_equal.
    assert (E : filter (keqb x) l = []); [| rewrite E; reflexivity].
    clear IH Hnd. induction l as [|b l IHl]; simpl; [reflexivity |].
    rewrite keqb_neq.
    + apply IHl. intros Hx. apply Hna. right. exact Hx.
    + intros ->. apply Hna. left. reflexivity.
  - rewrite keqb_neq; [apply IH; exact Hin |].
    intros ->. contradiction.
Qed.

Lemma group_sizes_cons (key : Order -> K) (r : Order) (t : DataFrame) (l : list K) :
  fold_right Nat.add O (map (fun k => len (group_rows key (r :: t) k)) l)
  = (List.length (filter (keqb (key r)) l)
     + fold_right Nat.add O (map (fun k => len (group_rows key t k)) l))%nat.
Proof.
  induction l as [|k l IH]; [reflexivity |].
  cbn [map fold_right filter]. rewrite IH. unfold len, group_rows.
  cbn [filter]. destruct (keqb (key r) k); simpl; lia.
Qed.

(** Every row falls in exactly one of a duplicate-free list of keys that
    covers the frame, so the group sizes add up to the frame's length. *)
Lemma group_sizes_sum (key : Order -> K) (df : DataFrame) (ks : list K) :
  NoDup ks -> (forall r, In r df -> In (key r) ks) ->
  fold_right Nat.add O (map (fun k => len (group_rows key df k)) ks) = len df.
Proof.
  intros Hnd. induction df as [|r t IH]; intros Hcov.
  - simpl. clear Hnd Hcov. induction ks as [|k ks' IHk]; simpl; [reflexivity | exact IHk].
  - rewrite group_sizes_cons, IH.
    + rewrite count_key_NoDup; [reflexivity | exact Hnd |].
      apply Hcov. left. reflexivity.
    + intros r' Hr'. apply Hcov. right. exact Hr'.
Qed.

End UniqueSortedFacts.

(** * Properties that hold for every quicksort *)

Section Properties.
Context {qs : Quicksort}.

(** ** KPI figures *)

Lemma col_sum_sum_of (df : DataFrame) : col_sum df = sum_of (map amount df).
Proof.
  induction df as [|r t IH]; simpl; [reflexivity | rewrite IH; reflexivity].
Qed.

Lemma Qnat_S_nonzero (n : nat) : Qeq_bool (Qnat (S n)) 0 = false.
Proof.
  destruct (Qeq_bool (Qnat (S n)) 0) eqn:E; [|reflexivity].
  apply Qeq_bool_eq in E. unfold Qeq, Qnat in E. simpl in E. lia.
Qed.

(** The guarded divisions never raise: [kpi_cards] always returns. *)
Lemma kpi_cards_value (filtered filtered_nc : DataFrame) :
  kpi_cards filtered filtered_nc =
  Some {| total_orders := len filtered;
          total_revenue := col_sum filtered_nc;
          cancellation_rate :=
            match len filtered with
            | O => 0%Q
            | S _ => (Qnat (len (filter is_cancelled filtered)) / Qnat (len filtered) * 100)%Q
            end;
          avg_order_value :=
            match len filtered_nc with
            | O => 0%Q
            | S _ => (col_sum filtered_nc / Qnat (len filtered_nc))%Q
            end |}.
Proof.
  unfold kpi_cards.
  destruct (len filtered) as [|n] eqn:En; destruct (len filtered_nc) as [|m] eqn:Em;
    simpl; unfold truediv; rewrite ?Qnat_S_nonzero; reflexivity.
Qed.

(** The callback always returns, and what it returns is determined by
    [kpi_cards_value]. *)
Lemma update_dashboard_returns (st : Store)
    (start_date end_date : option Z) (selected_category : option string) :
  exists out st',
    update_dashboard st start_date end_date selected_category = Some (out, st').
Proof.
  unfold update_dashboard. rewrite kpi_cards_value. simpl. eauto.
Qed.

(** C1. KPI aggregation: for every request the callback returns (no
    division fault, also on an empty frame) with
    total_orders = count(filtered_all),
    total_revenue = sum of sale_amount over filtered_non_cancelled,
    cancellation_rate = cancelled_count / total_orders * 100, and 0 when
    total_orders = 0,
    avg_order_value = total_revenue / count(filtered_non_cancelled), and 0
    when that count is 0. *)
Theorem kpi_aggregation (st : Store)
    (start_date end_date : option Z) (selected_category : option string) :
  let filtered_all :=
    filtered_data (amazon_sales_data st) start_date end_date selected_category in
  let filtered_nc :=
    filtered_non_cancelled (amazon_sales_data st) start_date end_date selected_category in
  let cancelled_count := List.length (filter is_cancelled filtered_all) in
  exists out st',
    update_dashboard st start_date end_date selected_category = Some (out, st') /\
    total_orders (out_kpi_cards out) = List.length filtered_all /\
    (total_revenue (out_kpi_cards out) == sum_of (map amount filtered_nc))%Q /\
    (cancellation_rate (out_kpi_cards out) ==
       match List.length filtered_all with
       | O => 0
       | S _ => Qnat cancelled_count / Qnat (List.length filtered_all) * 100
       end)%Q /\
    (avg_order_value (out_kpi_cards out) ==
       match List.length filtered_nc with
       | O => 0
       | S _ => sum_of (map amount filtered_nc) / Qnat (List.length filtered_nc)
       end)%Q.
Proof.
  intros filtered_all filtered_nc cancelled_count.
  unfold update_dashboard. rewrite kpi_cards_value.
  fold filtered_all.
  change (not_cancelled filtered_all) with filtered_nc.
  cbn [bind]. eexists. eexists. split; [reflexivity |].
  cbn [out_kpi_cards total_orders total_revenue cancellation_rate avg_order_value].
  unfold len. rewrite col_sum_sum_of.
  repeat split; reflexivity.
Qed.

(** ** Filter *)

(** C3, as stated, fails: with a start date and no end date, an order dated
    before the start date still passes the filter. *)
Lemma filter_single_bound_not_applied :
  ~ (forall r,
        In r (filtered_data [order_on 1] (Some 5) None None) -> 5 <= Order_Date r).
Proof.
  intros Hall. specialize (Hall (order_on 1)).
  assert (Hin : In (order_on 1) (filtered_data [order_on 1] (Some 5) None None))
    by (left; reflexivity).
  apply Hall in Hin. simpl in Hin. lia.
Qed.

(** C3, amended. When exactly one of start_date and end_date is absent, no
    date bound is applied at all: the bound that is present is ignored and
    the filtered frame is the base table under the category filter alone.
    No clamping takes place and the filter does not fail. *)
Theorem filter_one_bound_absent (base : DataFrame)
    (start_date end_date : option Z) (selected_category : option string) :
  (start_date = None /\ end_date <> None) \/ (start_date <> None /\ end_date = None) ->
  filtered_data base start_date end_date selected_category
  = filter_category selected_category base.
Proof.
  unfold filtered_data, filter_dates.
  intros [[-> _] | [_ ->]]; [reflexivity |].
  destruct start_date; reflexivity.
Qed.

Lemma filter_one_bound_absent_witness :
  ((Some 5 = None /\ @None Z <> None) \/ (Some 5 <> None /\ @None Z = None)) /\
  filtered_data [order_on 1] (Some 5) None None = [order_on 1].
Proof.
  split.
  - right. split; [discriminate | reflexivity].
  - apply (filter_one_bound_absent [order_on 1] (Some 5) None None).
    right. split; [discriminate | reflexivity].
Defined.

(** With both bounds present the date predicate is the inclusive range. *)
Lemma filter_both_bounds (base : DataFrame) (s e : Z) (r : Order) :
  In r (filtered_data base (Some s) (Some e) None) <->
  In r base /\ s <= Order_Date r <= e.
Proof.
  unfold filtered_data, filter_category, filter_dates.
  rewrite filter_In, andb_true_iff, Z.leb_le, Z.leb_le. reflexivity.
Qed.

(** ** What the callback wires to what *)

Lemma update_dashboard_inv (st : Store)
    (start_date end_date : option Z) (selected_category : option string)
    (out : Bundle) (st' : Store) :
  update_dashboard st start_date end_date selected_category = Some (out, st') ->
  let filtered :=
    filtered_data (amazon_sales_data st) start_date end_date selected_category in
  let filtered_nc :=
    filtered_non_cancelled (amazon_sales_data st) start_date end_date selected_category in
  out_daily_chart out = daily_sales filtered /\
  out_category_chart out = category_sales filtered_nc /\
  out_heatmap_data out = heatmap_data 15 (non_cancelled_orders st) /\
  out_cancel_chart out = cancel_chart filtered /\
  out_promo_chart out = promo_impact filtered_nc /\
  amazon_sales_data st' = map set_Month_Name (amazon_sales_data st) /\
  non_cancelled_orders st' = non_cancelled_orders st /\
  amazon_sales_data_filtered st' = Some filtered /\
  non_cancelled_orders_filtered st' = Some filtered_nc.
Proof.
  unfold update_dashboard. rewrite kpi_cards_value. cbn [bind].
  intros E. inversion E; subst; clear E. cbn. repeat split; reflexivity.
Qed.

(** ** Cancellation analysis *)

Lemma pivot_columns_In {V : Type} (long : list ((string * string) * V)) (c : string) :
  In c (columns (pivot long)) <-> exists p, In p long /\ snd (fst p) = c.
Proof.
  unfold pivot. cbn [columns]. rewrite unique_sorted_In, in_map_iff.
  split; intros (p & A & B); exists p; auto.
Qed.

Lemma pivot_index_In {V : Type} (long : list ((string * string) * V)) (i : string) :
  In i (index (pivot long)) <-> exists p, In p long /\ fst (fst p) = i.
Proof.
  unfold pivot. cbn [index]. rewrite unique_sorted_In, in_map_iff.
  split; intros (p & A & B); exists p; auto.
Qed.

Lemma isin_In (s : string) (l : list string) : isin s l = true <-> In s l.
Proof.
  unfold isin. rewrite existsb_exists. split.
  - intros (x & Hin & E). apply String.eqb_eq in E. subst. exact Hin.
  - intros Hin. exists s. split; [exact Hin | apply String.eqb_refl].
Qed.

(** The columns of the cross table are the statuses that occur. *)
Lemma cancel_columns_In (filtered : DataFrame) (s : string) :
  In s (columns (cancel_by_category filtered)) <->
  exists r, In r filtered /\ Order_Status r = s.
Proof.
  unfold cancel_by_category, unstack. cbn [columns fillna].
  rewrite pivot_columns_In. split.
  - intros ([[c s'] n] & Hin & E). simpl in E. subst s'.
    apply groupby_size_In in Hin. destruct Hin as [Hin _].
    apply in_map_iff in Hin. destruct Hin as (r & Er & Hr).
    exists r. split; [exact Hr | congruence].
  - intros (r & Hr & E).
    exists ((Product_Category r, Order_Status r),
            len (group_rows (fun r => (Product_Category r, Order_Status r)) filtered
                   (Product_Category r, Order_Status r))).
    split; [| exact E].
    apply groupby_size_In. split; [| reflexivity].
    apply in_map_iff. exists r. split; [reflexivity | exact Hr].
Qed.

(** C8. When no record of the filtered frame has status "Cancelled", the
    cancellation analysis returns the explicit empty marker (the "No
    cancellation data available" figure), which is no ranking at all,
    zero-filled or other. *)
Theorem cancel_chart_no_cancellations (st : Store)
    (start_date end_date : option Z) (selected_category : option string) :
  (forall r,
      In r (filtered_data (amazon_sales_data st) start_date end_date selected_category) ->
      Order_Status r <> "Cancelled"%string) ->
  exists out st',
    update_dashboard st start_date end_date selected_category = Some (out, st') /\
    out_cancel_chart out = NoCancellationData /\
    forall final_data, out_cancel_chart out <> CancelVolume final_data.
Proof.
  intros Hno.
  destruct (update_dashboard_returns st start_date end_date selected_category)
    as (out & st' & E).
  exists out, st'. split; [exact E |].
  apply update_dashboard_inv in E. destruct E as (_ & _ & _ & Ec & _).
  assert (Hm : out_cancel_chart out = NoCancellationData).
  { rewrite Ec. unfold cancel_chart.
    destruct (isin "Cancelled" (columns (cancel_by_category _))) eqn:Ei; [| reflexivity].
    exfalso. apply isin_In, cancel_columns_In in Ei.
    destruct Ei as (r & Hr & Es). exact (Hno r Hr Es). }
  split; [exact Hm |].
  intros final_data. rewrite Hm. discriminate.
Qed.

(** A cancelled record, conversely, selects the volume chart. *)
Lemma cancel_chart_some_cancellation (filtered : DataFrame) (r : Order) :
  In r filtered -> Order_Status r = "Cancelled"%string ->
  exists final_data, cancel_chart filtered = CancelVolume final_data.
Proof.
  intros Hr Es. unfold cancel_chart.
  assert (Hi : isin "Cancelled" (columns (cancel_by_category filtered)) = true).
  { apply isin_In, cancel_columns_In. exists r. auto. }
  rewrite Hi. eauto.
Qed.

(** ** The pivot takes the unfiltered table *)

(** C2, on the code: with the category filter set to "Set", the filtered
    non-cancelled view holds the one "Set" order, yet the pivot the callback
    computes still counts the "Top" order: it is taken from the module-level
    [non_cancelled_orders], not from the filtered view. *)
Theorem heatmap_ignores_category_filter :
  exists out st',
    update_dashboard (load_and_preprocess_data two_categories)
      None None (Some "Set"%string) = Some (out, st') /\
    filtered_non_cancelled two_categories None None (Some "Set"%string)
      = [order_of "Set" "KA" "Shipped" 100 None] /\
    out_heatmap_data out
      = {| index := ["KA"%string]; columns := ["Set"%string; "Top"%string];
           values := [[1%nat; 1%nat]] |} /\
    heatmap_data 15 (filtered_non_cancelled two_categories None None (Some "Set"%string))
      = {| index := ["KA"%string]; columns := ["Set"%string];
           values := [[1%nat]] |}.
Proof.
  eexists. eexists. split; [vm_compute; reflexivity |].
  repeat split; vm_compute; reflexivity.
Qed.

(** Whatever the request, the pivot is that of the unfiltered table. *)
Lemma heatmap_independent_of_request (st : Store)
    (s1 e1 s2 e2 : option Z) (c1 c2 : option string) (out1 out2 : Bundle)
    (st1 st2 : Store) :
  update_dashboard st s1 e1 c1 = Some (out1, st1) ->
  update_dashboard st s2 e2 c2 = Some (out2, st2) ->
  out_heatmap_data out1 = out_heatmap_data out2.
Proof.
  intros E1 E2.
  apply update_dashboard_inv in E1. apply update_dashboard_inv in E2.
  destruct E1 as (_ & _ & -> & _). destruct E2 as (_ & _ & -> & _). reflexivity.
Qed.

(** ** Promotion impact *)

Lemma keqb_bool (a b : bool) : keqb a b = Bool.eqb a b.
Proof. destruct a, b; reflexivity. Qed.

Lemma promo_impact_keys (filtered_nc : DataFrame) :
  map promo_Promotion_IDs (promo_impact filtered_nc)
  = unique_sorted (map has_promo filtered_nc).
Proof.
  unfold promo_impact. rewrite map_map. cbn [promo_Promotion_IDs].
  apply groupby_keys.
Qed.

Lemma promo_impact_counts (filtered_nc : DataFrame) :
  map promo_Order_Count (promo_impact filtered_nc)
  = map (fun b => len (group_rows has_promo filtered_nc b))
        (unique_sorted (map has_promo filtered_nc)).
Proof.
  unfold promo_impact, groupby. rewrite !map_map. reflexivity.
Qed.

Lemma promo_impact_row (filtered_nc : DataFrame) (row : PromoRow) :
  In row (promo_impact filtered_nc) ->
  In (promo_Promotion_IDs row) (map has_promo filtered_nc) /\
  promo_Order_Count row = len (orders_promo (promo_Promotion_IDs row) filtered_nc) /\
  promo_Total_Sales row = col_sum (orders_promo (promo_Promotion_IDs row) filtered_nc).
Proof.
  unfold promo_impact, groupby. rewrite map_map. intros Hin.
  apply in_map_iff in Hin. destruct Hin as (b & <- & Hb). cbn.
  apply (proj1 (unique_sorted_In _ _)) in Hb.
  assert (Eg : group_rows has_promo filtered_nc b = orders_promo b filtered_nc).
  { unfold group_rows, orders_promo. apply filter_ext. intros r. apply keqb_bool. }
  rewrite Eg. auto.
Qed.

(** C4, as stated, fails: when every order carries a promotion the result
    has no without-promotion partition at all. *)
Lemma promo_impact_partition_omitted :
  ~ (exists row,
        In row (promo_impact [order_of "Set" "KA" "Shipped" 100 (Some "P1"%string)]) /\
        promo_Promotion_IDs row = false).
Proof.
  intros (row & Hin & Hf). vm_compute in Hin.
  destruct Hin as [<- | []]. discriminate.
Qed.

(** C4, amended. The promotion-impact result holds one partition for each
    class (with, without promotion) that has at least one order of the
    filtered non-cancelled view, and none for an empty class; the partitions
    come without-promotion first, each at most once, every partition counts
    the orders of its class, and the order counts of the partitions present
    sum to count(filtered_non_cancelled). *)
Theorem promo_impact_partitions (filtered_nc : DataFrame) :
  (forall b,
      In b (map promo_Promotion_IDs (promo_impact filtered_nc)) <->
      exists r, In r filtered_nc /\ has_promo r = b) /\
  StronglySorted klt (map promo_Promotion_IDs (promo_impact filtered_nc)) /\
  Forall (fun row =>
            promo_Order_Count row
            = List.length (orders_promo (promo_Promotion_IDs row) filtered_nc) /\
            (0 < promo_Order_Count row)%nat)
         (promo_impact filtered_nc) /\
  fold_right Nat.add O (map promo_Order_Count (promo_impact filtered_nc))
  = List.length filtered_nc.
Proof.
  repeat split.
  - rewrite promo_impact_keys, unique_sorted_In, in_map_iff.
    intros (r & E & Hr). exists r. auto.
  - rewrite promo_impact_keys, unique_sorted_In, in_map_iff.
    intros (r & Hr & E). exists r. auto.
  - rewrite promo_impact_keys. apply unique_sorted_StronglySorted.
  - apply Forall_forall. intros row Hin.
    destruct (promo_impact_row _ _ Hin) as (Hk & Hc & _).
    split; [exact Hc |].
    rewrite Hc. apply in_map_iff in Hk. destruct Hk as (r & Er & Hr).
    assert (Hin' : In r (orders_promo (promo_Promotion_IDs row) filtered_nc)).
    { unfold orders_promo. apply filter_In. split; [exact Hr |].
      rewrite Er. apply Bool.eqb_reflx. }
    unfold len. destruct (orders_promo _ _); [contradiction | simpl; lia].
  - rewrite promo_impact_counts.
    apply (group_sizes_sum has_promo filtered_nc).
    + apply unique_sorted_NoDup.
    + intros r Hr. apply unique_sorted_In, in_map. exact Hr.
Qed.

(** ** Daily series *)

Lemma map_fst_combine {A B : Type} (l : list A) (l' : list B) :
  List.length l = List.length l' -> map fst (combine l l') = l.
Proof.
  revert l'. induction l as [|a l IH]; intros [|b l'] E; simpl in *;
    try discriminate; [reflexivity |].
  f_equal. apply IH. lia.
Qed.

Lemma map_snd_combine {A B : Type} (l : list A) (l' : list B) :
  List.length l = List.length l' -> map snd (combine l l') = l'.
Proof.
  revert l'. induction l as [|a l IH]; intros [|b l'] E; simpl in *;
    try discriminate; [reflexivity |].
  f_equal. apply IH. lia.
Qed.

Lemma roll_mean_loop_length (values : list Q) (window minp todo i : nat)
    (st : MeanState) :
  List.length (roll_mean_loop values window minp todo i st) = todo.
Proof.
  revert i st. induction todo as [|n IH]; intros i st; simpl;
    [reflexivity | f_equal; apply IH].
Qed.

Lemma rolling_mean_length (window minp : nat) (values : list Q) :
  List.length (rolling_mean window minp values) = List.length values.
Proof. apply roll_mean_loop_length. Qed.

Lemma daily_combine_length (filtered : DataFrame) :
  List.length (daily_groups filtered)
  = List.length (rolling_mean 7 1 (map sales_Sale_Amount (daily_groups filtered))).
Proof. rewrite rolling_mean_length, length_map. reflexivity. Qed.

Lemma daily_sales_groups (filtered : DataFrame) :
  map (fun row => {| sales_key := daily_Order_Date row;
                     sales_Order_ID := daily_Order_ID row;
                     sales_Sale_Amount := daily_Sale_Amount row |})
      (daily_sales filtered)
  = daily_groups filtered.
Proof.
  unfold daily_sales. rewrite map_map.
  transitivity (map fst (combine (daily_groups filtered)
                  (rolling_mean 7 1 (map sales_Sale_Amount (daily_groups filtered))))).
  - apply map_ext. intros [[k n a] q]. reflexivity.
  - apply map_fst_combine, daily_combine_length.
Qed.

Lemma daily_sales_dates (filtered : DataFrame) :
  map daily_Order_Date (daily_sales filtered)
  = unique_sorted (map (fun r => dt_date (Order_Date r)) filtered).
Proof.
  rewrite <- (groupby_keys (fun r => dt_date (Order_Date r)) filtered).
  transitivity (map sales_key (daily_groups filtered)).
  - rewrite <- daily_sales_groups, map_map. reflexivity.
  - unfold daily_groups, agg_sales. rewrite !map_map. reflexivity.
Qed.

Lemma daily_sales_revenue (filtered : DataFrame) :
  map daily_Sale_Amount (daily_sales filtered)
  = map sales_Sale_Amount (daily_groups filtered).
Proof.
  rewrite <- daily_sales_groups, map_map. reflexivity.
Qed.

Lemma daily_sales_rolling (filtered : DataFrame) :
  map daily_Rolling_Avg (daily_sales filtered)
  = rolling_mean 7 1 (map daily_Sale_Amount (daily_sales filtered)).
Proof.
  rewrite daily_sales_revenue. unfold daily_sales. rewrite map_map.
  transitivity (map snd (combine (daily_groups filtered)
                  (rolling_mean 7 1 (map sales_Sale_Amount (daily_groups filtered))))).
  - apply map_ext. intros [g q]. reflexivity.
  - apply map_snd_combine, daily_combine_length.
Qed.

Lemma keqb_Z (a b : Z) : keqb a b = (a =? b).
Proof.
  unfold keqb. simpl. rewrite Z.eqb_compare. reflexivity.
Qed.

Lemma daily_sales_row (filtered : DataFrame) (row : DailyRow) :
  In row (daily_sales filtered) ->
  daily_Order_ID row = len (orders_on (daily_Order_Date row) filtered) /\
  daily_Sale_Amount row = col_sum (orders_on (daily_Order_Date row) filtered).
Proof.
  intros Hin.
  apply (in_map (fun row => {| sales_key := daily_Order_Date row;
                               sales_Order_ID := daily_Order_ID row;
                               sales_Sale_Amount := daily_Sale_Amount row |})) in Hin.
  rewrite daily_sales_groups in Hin.
  unfold daily_groups, agg_sales, groupby in Hin. rewrite map_map in Hin.
  apply in_map_iff in Hin. destruct Hin as (d & E & _). cbn in E.
  inversion E as [[E1 E2 E3]]. rewrite <- E1.
  assert (Eg : group_rows (fun r => dt_date (Order_Date r)) filtered d
               = orders_on d filtered).
  { unfold group_rows, orders_on. apply filter_ext. intros r. apply keqb_Z. }
  rewrite Eg. auto.
Qed.

(** C9. The daily series of a request is computed over the all-orders view
    (the cancelled orders of a day count in both totals), is ascending by
    date, and has a row exactly for the days on which the view has an
    order. *)
Theorem daily_series (st : Store)
    (start_date end_date : option Z) (selected_category : option string) :
  let filtered_all :=
    filtered_data (amazon_sales_data st) start_date end_date selected_category in
  exists out st',
    update_dashboard st start_date end_date selected_category = Some (out, st') /\
    StronglySorted Z.lt (map daily_Order_Date (out_daily_chart out)) /\
    (forall d,
        In d (map daily_Order_Date (out_daily_chart out)) <->
        exists r, In r filtered_all /\ dt_date (Order_Date r) = d) /\
    Forall (fun row =>
              daily_Order_ID row
              = List.length (orders_on (daily_Order_Date row) filtered_all) /\
              (daily_Sale_Amount row
               == sum_of (map amount (orders_on (daily_Order_Date row) filtered_all)))%Q)
           (out_daily_chart out).
Proof.
  intros filtered_all.
  destruct (update_dashboard_returns st start_date end_date selected_category)
    as (out & st' & E).
  exists out, st'. split; [exact E |].
  apply update_dashboard_inv in E. destruct E as (Ed & _).
  fold filtered_all in Ed. rewrite Ed. repeat split.
  - rewrite daily_sales_dates.
    exact (unique_sorted_StronglySorted (map (fun r => dt_date (Order_Date r)) filtered_all)).
  - rewrite daily_sales_dates, unique_sorted_In, in_map_iff.
    intros (r & Er & Hr). exists r. auto.
  - rewrite daily_sales_dates, unique_sorted_In, in_map_iff.
    intros (r & Hr & Er). exists r. auto.
  - apply Forall_forall. intros row Hin.
    destruct (daily_sales_row _ _ Hin) as (Hc & Hs). split.
    + exact Hc.
    + rewrite Hs, col_sum_sum_of. reflexivity.
Qed.

(** ** Effects of a request on the module state *)

Lemma set_Month_Name_idem (r : Order) :
  set_Month_Name (set_Month_Name r) = set_Month_Name r.
Proof. reflexivity. Qed.

Lemma set_Month_Name_same (df : DataFrame) :
  Forall2 same_but_Month_Name df (map set_Month_Name df).
Proof.
  induction df as [|r t IH]; simpl; constructor; [| exact IH].
  unfold same_but_Month_Name. simpl. repeat split; reflexivity.
Qed.

(** C10, amended. A request rebinds the two process-wide filtered frames to
    the views of that request and sets the [Month_Name] column of the base
    table from [Order_Date]; the rows of the base table, their order and all
    their other columns are unchanged, and so is the non-cancelled base
    table.  Setting the column again changes nothing: a request that
    follows another leaves the base table as it found it. *)
Theorem request_effects (st : Store)
    (start_date end_date : option Z) (selected_category : option string) :
  exists out st',
    update_dashboard st start_date end_date selected_category = Some (out, st') /\
    amazon_sales_data st' = map set_Month_Name (amazon_sales_data st) /\
    Forall2 same_but_Month_Name (amazon_sales_data st) (amazon_sales_data st') /\
    non_cancelled_orders st' = non_cancelled_orders st /\
    amazon_sales_data_filtered st'
      = Some (filtered_data (amazon_sales_data st) start_date end_date selected_category) /\
    non_cancelled_orders_filtered st'
      = Some (filtered_non_cancelled (amazon_sales_data st)
                start_date end_date selected_category) /\
    forall start_date2 end_date2 selected_category2,
    exists out2 st'',
      update_dashboard st' start_date2 end_date2 selected_category2 = Some (out2, st'') /\
      amazon_sales_data st'' = amazon_sales_data st'.
Proof.
  destruct (update_dashboard_returns st start_date end_date selected_category)
    as (out & st' & E).
  exists out, st'. split; [exact E |].
  apply update_dashboard_inv in E.
  destruct E as (_ & _ & _ & _ & _ & Eb & En & Ef & Efn).
  rewrite Eb. repeat split; try assumption.
  - apply set_Month_Name_same.
  - intros s2 e2 c2.
    destruct (update_dashboard_returns st' s2 e2 c2) as (out2 & st'' & E2).
    exists out2, st''. split; [exact E2 |].
    apply update_dashboard_inv in E2.
    destruct E2 as (_ & _ & _ & _ & _ & Eb2 & _).
    rewrite Eb2, Eb, map_map. apply map_ext. intros r. apply set_Month_Name_idem.
Qed.

(** ** Rolling mean *)

Lemma sum_of_app (l1 l2 : list Q) : (sum_of (l1 ++ l2) == sum_of l1 + sum_of l2)%Q.
Proof.
  induction l1 as [|x l1 IH]; simpl.
  - ring.
  - rewrite IH. ring.
Qed.

Lemma range_sum_split (values : list Q) (lo mid hi : nat) :
  (lo <= mid)%nat -> (mid <= hi)%nat ->
  (range_sum values lo hi == range_sum values lo mid + range_sum values mid hi)%Q.
Proof.
  intros H1 H2. unfold range_sum.
  replace (hi - lo)%nat with ((mid - lo) + (hi - mid))%nat by lia.
  rewrite seq_app, map_app, sum_of_app.
  replace (lo + (mid - lo))%nat with mid by lia. reflexivity.
Qed.

Lemma fold_add_mean (values : list Q) (n lo : nat) (st : MeanState) :
  nobs (fold_left (fun acc j => add_mean (nth j values 0%Q) acc) (seq lo n) st)
  = (nobs st + n)%nat /\
  (sum_x (fold_left (fun acc j => add_mean (nth j values 0%Q) acc) (seq lo n) st)
   == sum_x st + sum_of (map (fun j => nth j values 0%Q) (seq lo n)))%Q.
Proof.
  revert lo st. induction n as [|n IH]; intros lo st; simpl.
  - split; [lia | unfold sum_of; simpl; ring].
  - destruct (IH (S lo) (add_mean (nth lo values 0%Q) st)) as (Hn & Hs).
    split.
    + rewrite Hn. simpl. lia.
    + rewrite Hs. simpl. ring.
Qed.

Lemma fold_remove_mean (values : list Q) (n lo : nat) (st : MeanState) :
  nobs (fold_left (fun acc j => remove_mean (nth j values 0%Q) acc) (seq lo n) st)
  = (nobs st - n)%nat /\
  (sum_x (fold_left (fun acc j => remove_mean (nth j values 0%Q) acc) (seq lo n) st)
   == sum_x st - sum_of (map (fun j => nth j values 0%Q) (seq lo n)))%Q.
Proof.
  revert lo st. induction n as [|n IH]; intros lo st; simpl.
  - split; [lia | unfold sum_of; simpl; ring].
  - destruct (IH (S lo) (remove_mean (nth lo values 0%Q) st)) as (Hn & Hs).
    split.
    + rewrite Hn. simpl. lia.
    + rewrite Hs. simpl. ring.
Qed.

Lemma for_range_add (values : list Q) (lo hi : nat) (st : MeanState) :
  nobs (for_range values lo hi add_mean st) = (nobs st + (hi - lo))%nat /\
  (sum_x (for_range values lo hi add_mean st) == sum_x st + range_sum values lo hi)%Q.
Proof. apply fold_add_mean. Qed.

Lemma for_range_remove (values : list Q) (lo hi : nat) (st : MeanState) :
  nobs (for_range values lo hi remove_mean st) = (nobs st - (hi - lo))%nat /\
  (sum_x (for_range values lo hi remove_mean st) == sum_x st - range_sum values lo hi)%Q.
Proof. apply fold_remove_mean. Qed.

(** One turn of the loop moves the state from the window at [i - 1] to the
    window at [i]. *)
Lemma roll_step (values : list Q) (window i : nat) (st : MeanState) :
  (i < List.length values)%nat ->
  i = O \/ win_state values window (i - 1) st ->
  let n := List.length values in
  let s := window_start window i in
  let e := window_end n i in
  win_state values window i
    (if ((i =? 0) || (window_end n (i - 1) <=? s))%nat
     then for_range values s e add_mean mean_init
     else for_range values (window_end n (i - 1)) e add_mean
            (for_range values (window_start window (i - 1)) s remove_mean st)).
Proof.
  intros Hi Hprev n s e.
  destruct ((i =? 0) || (window_end n (i - 1) <=? s))%nat eqn:Ec.
  - destruct (for_range_add values s e mean_init) as (Hn & Hs).
    split; [rewrite Hn; reflexivity |].
    rewrite Hs. unfold mean_init, s, e, n. cbn [sum_x]. ring.
  - apply orb_false_iff in Ec. destruct Ec as (E0 & Ele).
    apply Nat.eqb_neq in E0. apply Nat.leb_gt in Ele.
    destruct Hprev as [-> | (Pn & Ps)]; [contradiction |].
    fold n in Pn, Ps.
    set (s0 := window_start window (i - 1)) in *.
    set (e0 := window_end n (i - 1)) in *.
    assert (Hord : (s0 <= s /\ s <= e0 /\ e0 <= e)%nat).
    { unfold s0, s, e0, e, window_start, window_end in *. lia. }
    destruct (for_range_remove values s0 s st) as (Rn & Rs).
    destruct (for_range_add values e0 e (for_range values s0 s remove_mean st))
      as (An & As).
    split.
    + rewrite An, Rn, Pn.
      unfold s0, s, e0, e, n, window_start, window_end in *. lia.
    + rewrite As, Rs, Ps.
      change (window_start window i) with s.
      change (window_end (List.length values) i) with e.
      rewrite (range_sum_split values s0 s e0) by lia.
      rewrite (range_sum_split values s e0 e) by lia.
      ring.
Qed.

Lemma roll_mean_loop_nth (values : list Q) (window minp todo i : nat)
    (st : MeanState) (k : nat) :
  (i + todo <= List.length values)%nat ->
  i = O \/ win_state values window (i - 1) st ->
  (k < todo)%nat ->
  exists stk,
    nth_error (roll_mean_loop values window minp todo i st) k
      = Some (calc_mean minp stk) /\
    win_state values window (i + k) stk.
Proof.
  revert i st k. induction todo as [|todo IH]; intros i st k Hlen Hprev Hk; [lia |].
  assert (Hstep := roll_step values window i st ltac:(lia) Hprev).
  cbn zeta in Hstep. cbn [roll_mean_loop].
  set (st' := if ((i =? 0) || _)%nat then _ else _) in *.
  destruct k as [|k].
  - exists st'. split; [reflexivity |].
    replace (i + 0)%nat with i by lia. exact Hstep.
  - cbn [nth_error].
    destruct (IH (S i) st' k) as (stk & E & W).
    + lia.
    + right. replace (S i - 1)%nat with i by lia. exact Hstep.
    + lia.
    + exists stk. split; [exact E |].
      replace (i + S k)%nat with (S i + k)%nat by lia. exact W.
Qed.

Lemma nth_map_seq (f : nat -> Q) (lo n k : nat) (d : Q) :
  (k < n)%nat -> nth k (map f (seq lo n)) d = f (lo + k)%nat.
Proof.
  intros Hk.
  rewrite (nth_indep _ d (f O)) by (rewrite length_map, length_seq; exact Hk).
  rewrite (map_nth f), seq_nth by exact Hk. reflexivity.
Qed.

Lemma range_sum_slice (values : list Q) (lo hi : nat) :
  (hi <= List.length values)%nat ->
  range_sum values lo hi = sum_of (firstn (hi - lo) (skipn lo values)).
Proof.
  intros Hhi. unfold range_sum. f_equal.
  apply (nth_ext _ _ 0%Q 0%Q).
  - rewrite length_map, length_seq, length_firstn, length_skipn. lia.
  - intros k Hk. rewrite length_map, length_seq in Hk.
    rewrite nth_firstn, nth_skipn.
    assert (Ek : (k <? hi - lo)%nat = true) by (apply Nat.ltb_lt; exact Hk).
    rewrite Ek. apply nth_map_seq. exact Hk.
Qed.

(** The rolling mean of the program, window 7 and min_periods 1, is
    defined at every position and is the mean of the trailing window. *)
Lemma rolling_mean_7_1 (values : list Q) (i : nat) :
  (i < List.length values)%nat ->
  exists q,
    nth_error (rolling_mean 7 1 values) i = Some (Some q) /\
    (q == mean (firstn (i - Nat.max 0 (i - 6) + 1) (skipn (Nat.max 0 (i - 6)) values)))%Q.
Proof.
  intros Hi. unfold rolling_mean.
  destruct (roll_mean_loop_nth values 7 1 (List.length values) 0 mean_init i)
    as (stk & E & (Wn & Ws)); [lia | left; reflexivity | exact Hi |].
  simpl plus in Wn, Ws.
  assert (Hs : window_start 7 i = Nat.max 0 (i - 6)) by (unfold window_start; lia).
  assert (He : window_end (List.length values) i = (i + 1)%nat)
    by (unfold window_end; lia).
  rewrite Hs, He in Wn, Ws.
  assert (Hc : (i + 1 - Nat.max 0 (i - 6) = i - Nat.max 0 (i - 6) + 1)%nat) by lia.
  rewrite range_sum_slice in Ws by lia. rewrite Hc in Wn, Ws.
  exists (sum_x stk / Qnat (nobs stk))%Q. split.
  - rewrite E. unfold calc_mean.
    assert (Hpos : ((1 <=? nobs stk) && (0 <? nobs stk))%nat = true).
    { apply andb_true_iff. split; [apply Nat.leb_le | apply Nat.ltb_lt]; lia. }
    rewrite Hpos. reflexivity.
  - unfold mean. rewrite length_firstn, length_skipn.
    replace (Nat.min (i - Nat.max 0 (i - 6) + 1) (List.length values - Nat.max 0 (i - 6)))
      with (nobs stk) by lia.
    rewrite Ws. reflexivity.
Qed.

(** C5. In the daily series the rolling average at position i is defined and
    equals the mean of revenue[max(0,i-6) .. i], a trailing window of up to
    7 points; at every position i < 6 it is the mean of revenue[0 .. i], and
    at position 0 it is revenue[0]. *)
Theorem rolling_avg_trailing_mean (filtered : DataFrame) (i : nat) :
  let revenue := map daily_Sale_Amount (daily_sales filtered) in
  (i < List.length (daily_sales filtered))%nat ->
  exists q,
    nth_error (map daily_Rolling_Avg (daily_sales filtered)) i = Some (Some q) /\
    (q == mean (firstn (i - Nat.max 0 (i - 6) + 1) (skipn (Nat.max 0 (i - 6)) revenue)))%Q /\
    ((i < 6)%nat -> (q == mean (firstn (i + 1) revenue))%Q) /\
    (i = O -> (q == nth 0 revenue 0)%Q).
Proof.
  intros revenue Hi.
  rewrite daily_sales_rolling. fold revenue.
  assert (Hlen : (i < List.length revenue)%nat)
    by (unfold revenue; rewrite length_map; exact Hi).
  destruct (rolling_mean_7_1 revenue i Hlen) as (q & E & Hq).
  exists q. split; [exact E |]. split; [exact Hq |]. split.
  - intros H6. rewrite Hq.
    replace (Nat.max 0 (i - 6)) with O by lia.
    replace (i - 0 + 1)%nat with (i + 1)%nat by lia. reflexivity.
  - intros ->. rewrite Hq. simpl.
    destruct revenue as [|x t]; [simpl in Hlen; lia |].
    unfold mean. simpl. unfold Qnat. simpl. field.
Qed.

Lemma rolling_avg_trailing_mean_witness :
  (0 < List.length (daily_sales [order_on 1]))%nat /\
  exists q,
    nth_error (map daily_Rolling_Avg (daily_sales [order_on 1])) 0 = Some (Some q) /\
    (q == 100)%Q.
Proof.
  assert (Hi : (0 < List.length (daily_sales [order_on 1]))%nat) by (simpl; lia).
  split; [exact Hi |].
  destruct (rolling_avg_trailing_mean [order_on 1] 0 Hi) as (q & E & _ & _ & H0).
  exists q. split; [exact E |]. exact (H0 eq_refl).
Defined.

(** ** Sorting *)

Lemma StronglySorted_impl {A : Type} (R R' : A -> A -> Prop) (l : list A) :
  (forall x y, R x y -> R' x y) -> StronglySorted R l -> StronglySorted R' l.
Proof.
  intros Himp. induction 1 as [|a l Hs IH Hall]; constructor; [exact IH |].
  eapply Forall_impl; [| exact Hall]. intros y. apply Himp.
Qed.

Lemma StronglySorted_app {A : Type} (R : A -> A -> Prop) (l1 l2 : list A) :
  StronglySorted R l1 -> StronglySorted R l2 ->
  (forall x y, In x l1 -> In y l2 -> R x y) ->
  StronglySorted R (l1 ++ l2).
Proof.
  induction 1 as [|a l1 Hs IH Hall]; intros H2 Hx; simpl; [exact H2 |].
  constructor.
  - apply IH; [exact H2 |]. intros x y Hi Hj. apply Hx; [right; exact Hi | exact Hj].
  - apply Forall_app. split; [exact Hall |].
    apply Forall_forall. intros y Hy. apply Hx; [left; reflexivity | exact Hy].
Qed.

Lemma StronglySorted_rev {A : Type} (R : A -> A -> Prop) (l : list A) :
  StronglySorted R l -> StronglySorted (fun x y => R y x) (rev l).
Proof.
  induction 1 as [|a l Hs IH Hall]; simpl; [constructor |].
  apply StronglySorted_app.
  - exact IH.
  - repeat constructor.
  - intros x y Hx [<- | []]. rewrite Forall_forall in Hall.
    apply Hall. apply in_rev. exact Hx.
Qed.

Lemma In_firstn {A : Type} (n : nat) (l : list A) (x : A) :
  In x (firstn n l) -> In x l.
Proof.
  revert n. induction l as [|a l IH]; intros [|n]; simpl; try contradiction.
  intros [-> | Hin]; [left; reflexivity | right; exact (IH n Hin)].
Qed.

Lemma StronglySorted_firstn {A : Type} (R : A -> A -> Prop) (n : nat) (l : list A) :
  StronglySorted R l -> StronglySorted R (firstn n l).
Proof.
  intros Hs. revert n. induction Hs as [|a l Hs IH Hall]; intros [|n]; simpl;
    try constructor.
  - apply IH.
  - apply Forall_forall. intros y Hy. rewrite Forall_forall in Hall.
    apply Hall. exact (In_firstn _ _ _ Hy).
Qed.

Lemma StronglySorted_map_inv {A B : Type} (R : B -> B -> Prop) (f : A -> B)
    (l : list A) :
  StronglySorted R (map f l) -> StronglySorted (fun x y => R (f x) (f y)) l.
Proof.
  induction l as [|a l IH]; simpl; intros Hs; [constructor |].
  inversion Hs as [|? ? Hs' Hall]; subst. constructor; [apply IH; exact Hs' |].
  apply Forall_forall. intros y Hy. rewrite Forall_forall in Hall.
  apply Hall. apply in_map. exact Hy.
Qed.

Lemma StronglySorted_True {A : Type} (l : list A) :
  StronglySorted (fun _ _ => True) l.
Proof.
  induction l as [|a l IH]; constructor; [exact IH |].
  apply Forall_forall. intros; exact I.
Qed.

Section SortFacts.
Context {A : Type} (by_ : A -> Q) (R : A -> A -> Prop).

Lemma lex_asc_le (x y : A) : lex_asc by_ R x y -> (by_ x <= by_ y)%Q.
Proof.
  intros [Hlt | [Heq _]]; [apply Qlt_le_weak; exact Hlt | rewrite Heq; apply Qle_refl].
Qed.

Lemma insert_asc_Permutation (x : A) (l : list A) :
  Permutation (insert_asc by_ x l) (x :: l).
Proof.
  induction l as [|y t IH]; simpl; [reflexivity |].
  destruct (Qle_bool (by_ x) (by_ y)); [reflexivity |].
  rewrite IH. apply perm_swap.
Qed.

Lemma insertion_argsort_Permutation (l : list A) :
  Permutation (insertion_argsort by_ l) l.
Proof.
  induction l as [|x t IH]; simpl; [reflexivity |].
  rewrite insert_asc_Permutation. constructor. exact IH.
Qed.

(** A row put in front of rows it precedes by [R] stays in front of those
    of equal value: the insertion is stable. *)
Lemma insert_asc_sorted (x : A) (l : list A) :
  StronglySorted (lex_asc by_ R) l -> Forall (R x) l ->
  StronglySorted (lex_asc by_ R) (insert_asc by_ x l).
Proof.
  induction 1 as [|y t Hs IH Hall]; intros Hx; simpl.
  - repeat constructor.
  - inversion Hx as [|? ? Hxy Hxt]; subst.
    destruct (Qle_bool (by_ x) (by_ y)) eqn:E.
    + apply Qle_bool_iff in E. constructor; [constructor; assumption |].
      apply Forall_forall. intros z Hz.
      assert (Hle : (by_ x <= by_ z)%Q).
      { destruct Hz as [<- | Hz]; [exact E |].
        rewrite Forall_forall in Hall.
        eapply Qle_trans; [exact E | apply lex_asc_le, Hall, Hz]. }
      destruct (Qle_lt_or_eq _ _ Hle) as [Hlt | Heq]; [left; exact Hlt |].
      right. split; [exact Heq |].
      rewrite Forall_forall in Hx. apply Hx. exact Hz.
    + assert (Hlt : (by_ y < by_ x)%Q).
      { apply Qnot_le_lt. intros Hle. apply Qle_bool_iff in Hle. congruence. }
      constructor; [apply IH; exact Hxt |].
      apply Forall_forall. intros z Hz.
      apply (Permutation_in _ (insert_asc_Permutation x t)) in Hz.
      destruct Hz as [<- | Hz]; [left; exact Hlt |].
      rewrite Forall_forall in Hall. apply Hall. exact Hz.
Qed.

Lemma insertion_argsort_sorted (l : list A) :
  StronglySorted R l -> StronglySorted (lex_asc by_ R) (insertion_argsort by_ l).
Proof.
  induction 1 as [|x t Hs IH Hall]; simpl; [constructor |].
  apply insert_asc_sorted; [exact IH |].
  apply Forall_forall. intros z Hz.
  apply (Permutation_in _ (insertion_argsort_Permutation t)) in Hz.
  rewrite Forall_forall in Hall. apply Hall. exact Hz.
Qed.

End SortFacts.

(** Whatever order the rows come in, insertion leaves them ascending. *)
Lemma insertion_argsort_le {A : Type} (by_ : A -> Q) (l : list A) :
  StronglySorted (fun x y => (by_ x <= by_ y)%Q) (insertion_argsort by_ l).
Proof.
  eapply StronglySorted_impl;
    [| apply (insertion_argsort_sorted by_ (fun _ _ => True)), StronglySorted_True].
  intros x y. apply lex_asc_le.
Qed.

(** Quicksort returns the rows of the column, ascending; this is all that
    holds of it on long columns. *)
Lemma argsort_Permutation {A : Type} (by_ : A -> Q) (l : list A) :
  Permutation (argsort by_ l) l.
Proof.
  unfold argsort. destruct (List.length l - 1 <=? SMALL_QUICKSORT)%nat.
  - apply insertion_argsort_Permutation.
  - rewrite insertion_argsort_Permutation. apply partition_order_perm.
Qed.

Lemma argsort_le {A : Type} (by_ : A -> Q) (l : list A) :
  StronglySorted (fun x y => (by_ x <= by_ y)%Q) (argsort by_ l).
Proof.
  unfold argsort. destruct (List.length l - 1 <=? SMALL_QUICKSORT)%nat;
    apply insertion_argsort_le.
Qed.

(** On a column of at most 17 rows quicksort is the insertion sort. *)
Lemma argsort_short {A : Type} (by_ : A -> Q) (l : list A) :
  (List.length l <= 17)%nat -> argsort by_ l = insertion_argsort by_ l.
Proof.
  intros Hlen. unfold argsort, SMALL_QUICKSORT.
  destruct (Nat.leb_spec (List.length l - 1) 16); [reflexivity | lia].
Qed.

Lemma sort_values_asc_Permutation {A : Type} (by_ : A -> Q) (l : list A) :
  Permutation (sort_values_asc by_ l) l.
Proof. apply argsort_Permutation. Qed.

Lemma sort_values_asc_le {A : Type} (by_ : A -> Q) (l : list A) :
  StronglySorted (fun x y => (by_ x <= by_ y)%Q) (sort_values_asc by_ l).
Proof. apply argsort_le. Qed.

Lemma sort_values_desc_Permutation {A : Type} (by_ : A -> Q) (l : list A) :
  Permutation (sort_values_desc by_ l) l.
Proof.
  unfold sort_values_desc.
  rewrite <- Permutation_rev, argsort_Permutation, <- Permutation_rev. reflexivity.
Qed.

(** [sort_values(col, ascending=False)]: descending by value. *)
Lemma sort_values_desc_le {A : Type} (by_ : A -> Q) (l : list A) :
  StronglySorted (fun x y => (by_ y <= by_ x)%Q) (sort_values_desc by_ l).
Proof.
  unfold sort_values_desc. apply StronglySorted_rev, argsort_le.
Qed.

(** ** Rankings *)

Lemma agg_sales_keys {K : Type} `{KeyOrdLaws K} (key : Order -> K) (view : DataFrame) :
  map sales_key (agg_sales key view) = unique_sorted (map key view).
Proof.
  unfold agg_sales. rewrite map_map. cbn [sales_key]. apply groupby_keys.
Qed.

Lemma agg_sales_sorted {K : Type} `{KeyOrdLaws K} (key : Order -> K) (view : DataFrame) :
  StronglySorted (fun x y => klt (sales_key x) (sales_key y)) (agg_sales key view).
Proof.
  apply StronglySorted_map_inv. rewrite agg_sales_keys.
  apply unique_sorted_StronglySorted.
Qed.

(** C6, amended. A ranking is ordered descending by revenue; the order of
    groups of equal revenue is whatever the sort leaves, and no tie-break,
    by order count or by key, is applied.  The ranking is the first top_n
    groups of that order, so it has at most top_n entries and holds every
    group when there are no more than top_n of them.  The category ranking
    is the one with top_n = 10. *)
Theorem ranking_order (key : Order -> string) (top_n : nat) (view : DataFrame) :
  let ranking := rank_sales key top_n view in
  let groups := agg_sales key view in
  StronglySorted rank_order ranking /\
  List.length ranking = Nat.min top_n (List.length groups) /\
  (exists rest,
      Permutation (ranking ++ rest) groups /\
      List.length rest = (List.length groups - top_n)%nat) /\
  category_sales view = rank_sales Product_Category 10 view.
Proof.
  intros ranking groups. unfold ranking, rank_sales, head. fold groups.
  repeat split.
  - apply StronglySorted_firstn.
    exact (sort_values_desc_le sales_Sale_Amount groups).
  - rewrite length_firstn.
    rewrite (Permutation_length (sort_values_desc_Permutation sales_Sale_Amount groups)).
    reflexivity.
  - exists (skipn top_n (sort_values_desc sales_Sale_Amount groups)). split.
    + rewrite firstn_skipn. apply sort_values_desc_Permutation.
    + rewrite length_skipn.
      rewrite (Permutation_length (sort_values_desc_Permutation sales_Sale_Amount groups)).
      reflexivity.
Qed.

(** On the table [tied_revenue] every quicksort leaves category "A" in
    front of category "B", which has the same revenue and more orders. *)
Lemma category_sales_tied_revenue :
  category_sales tied_revenue
  = [ {| sales_key := "A"%string; sales_Order_ID := 1; sales_Sale_Amount := 10 |};
      {| sales_key := "B"%string; sales_Order_ID := 2; sales_Sale_Amount := 10 |} ].
Proof. vm_compute. reflexivity. Qed.

(** ** State by category pivot *)

Lemma nth_position_map {B : Type} (f : string -> B) (l : list string) (x : string)
    (d : B) :
  In x l -> nth (position x l) (map f l) d = f x.
Proof.
  induction l as [|y t IH]; simpl; [contradiction |].
  intros Hin. destruct (String.eqb y x) eqn:E.
  - apply String.eqb_eq in E. subst. reflexivity.
  - apply IH. destruct Hin as [-> | Hin]; [| exact Hin].
    rewrite String.eqb_refl in E. discriminate.
Qed.

Lemma lookup_Some {K V : Type} `{KeyOrdLaws K} (k : K) (l : list (K * V)) (v : V) :
  lookup k l = Some v -> In (k, v) l.
Proof.
  unfold lookup. destruct (find _ l) as [[k' v']|] eqn:E; [| discriminate].
  intros [= <-]. apply find_some in E. destruct E as (Hin & Ek).
  simpl in Ek. apply (proj1 (keqb_eq _ _)) in Ek. subst. exact Hin.
Qed.

Lemma lookup_None {K V : Type} `{KeyOrdLaws K} (k : K) (l : list (K * V)) (v : V) :
  lookup k l = None -> ~ In (k, v) l.
Proof.
  unfold lookup. destruct (find _ l) as [p|] eqn:E; [discriminate |].
  intros _ Hin. apply (find_none _ _ E) in Hin. simpl in Hin.
  rewrite keqb_refl in Hin. discriminate.
Qed.

Lemma keqb_pair_string (a b s c : string) :
  keqb (a, b) (s, c) = String.eqb a s && String.eqb b c.
Proof.
  destruct (keqb (a, b) (s, c)) eqn:E1;
    destruct (String.eqb a s && String.eqb b c) eqn:E2; try reflexivity; exfalso.
  - apply (proj1 (keqb_eq _ _)) in E1. inversion E1; subst.
    rewrite !String.eqb_refl in E2. discriminate.
  - apply andb_true_iff in E2. destruct E2 as (Ea & Eb).
    apply String.eqb_eq in Ea, Eb. subst.
    rewrite keqb_refl in E1. discriminate.
Qed.

Lemma group_rows_cell (view : DataFrame) (s c : string) :
  group_rows (fun r => (Shipping_State r, Product_Category r)) view (s, c)
  = orders_of_cell s c view.
Proof.
  unfold group_rows, orders_of_cell. apply filter_ext. intros r.
  apply keqb_pair_string.
Qed.

(** The states kept are states of the view. *)
Lemma top_n_states_In (N : nat) (view : DataFrame) (s : string) :
  In s (top_n_states_list N view) -> exists r, In r view /\ Shipping_State r = s.
Proof.
  unfold top_n_states_list, head, top_states. intros Hin.
  apply in_map_iff in Hin. destruct Hin as ([s' n] & Es & Hin). simpl in Es. subst s'.
  apply In_firstn in Hin.
  apply (Permutation_in _ (sort_values_desc_Permutation _ _)) in Hin.
  apply groupby_size_In in Hin. destruct Hin as (Hin & _).
  apply in_map_iff in Hin. destruct Hin as (r & Er & Hr). exists r. auto.
Qed.

Lemma state_category_orders_filtered_In (N : nat) (view : DataFrame)
    (s c : string) (n : nat) :
  In ((s, c), n) (state_category_orders_filtered N view) <->
  In s (top_n_states_list N view) /\
  orders_of_cell s c view <> [] /\
  n = List.length (orders_of_cell s c view).
Proof.
  unfold state_category_orders_filtered, state_category_orders.
  rewrite filter_In, groupby_size_In, isin_In, group_rows_cell. cbn [fst].
  rewrite in_map_iff. unfold len. split.
  - intros (((r & Er & Hr) & En) & Ht). repeat split; try assumption.
    intros Hnil.
    assert (Hin : In r (orders_of_cell s c view)).
    { unfold orders_of_cell. apply filter_In. split; [exact Hr |].
      inversion Er; subst. rewrite !String.eqb_refl. reflexivity. }
    rewrite Hnil in Hin. contradiction.
  - intros (Ht & Hne & En). repeat split; try assumption.
    destruct (orders_of_cell s c view) as [|r t] eqn:E; [contradiction |].
    assert (Hin : In r (orders_of_cell s c view)) by (rewrite E; left; reflexivity).
    unfold orders_of_cell in Hin. apply filter_In in Hin.
    destruct Hin as (Hr & Hb). apply andb_true_iff in Hb. destruct Hb as (Ea & Eb).
    apply String.eqb_eq in Ea, Eb. exists r. split; [congruence | exact Hr].
Qed.

Lemma heatmap_index_In (N : nat) (view : DataFrame) (s : string) :
  In s (index (heatmap_data N view)) <-> In s (top_n_states_list N view).
Proof.
  unfold heatmap_data. cbn [fillna index]. rewrite pivot_index_In. split.
  - intros ([[s' c] n] & Hin & Es). simpl in Es. subst s'.
    apply state_category_orders_filtered_In in Hin. tauto.
  - intros Ht. destruct (top_n_states_In _ _ _ Ht) as (r & Hr & Es).
    exists ((s, Product_Category r), List.length (orders_of_cell s (Product_Category r) view)).
    split; [| reflexivity].
    apply state_category_orders_filtered_In. repeat split; [exact Ht |].
    intros Hnil.
    assert (Hin : In r (orders_of_cell s (Product_Category r) view)).
    { unfold orders_of_cell. apply filter_In. split; [exact Hr |].
      rewrite Es, !String.eqb_refl. reflexivity. }
    rewrite Hnil in Hin. contradiction.
Qed.

Lemma heatmap_columns_In (N : nat) (view : DataFrame) (c : string) :
  In c (columns (heatmap_data N view)) <->
  exists r, In r view /\ In (Shipping_State r) (top_n_states_list N view) /\
            Product_Category r = c.
Proof.
  unfold heatmap_data. cbn [fillna columns]. rewrite pivot_columns_In. split.
  - intros ([[s c'] n] & Hin & Ec). simpl in Ec. subst c'.
    apply state_category_orders_filtered_In in Hin. destruct Hin as (Ht & Hne & _).
    destruct (orders_of_cell s c view) as [|r t] eqn:E; [contradiction |].
    assert (Hin : In r (orders_of_cell s c view)) by (rewrite E; left; reflexivity).
    unfold orders_of_cell in Hin. apply filter_In in Hin.
    destruct Hin as (Hr & Hb). apply andb_true_iff in Hb. destruct Hb as (Ea & Eb).
    apply String.eqb_eq in Ea, Eb. exists r. subst. auto.
  - intros (r & Hr & Ht & Ec).
    exists ((Shipping_State r, c),
            List.length (orders_of_cell (Shipping_State r) c view)).
    split; [| reflexivity].
    apply state_category_orders_filtered_In. repeat split; [exact Ht |].
    intros Hnil.
    assert (Hin : In r (orders_of_cell (Shipping_State r) c view)).
    { unfold orders_of_cell. apply filter_In. split; [exact Hr |].
      rewrite Ec, !String.eqb_refl. reflexivity. }
    rewrite Hnil in Hin. contradiction.
Qed.

(** Every cell of the pivot is the number of orders of its state and
    category, 0 when there is none. *)
Lemma heatmap_cell (N : nat) (view : DataFrame) (s c : string) :
  In s (index (heatmap_data N view)) -> In c (columns (heatmap_data N view)) ->
  cell O (heatmap_data N view) s c = List.length (orders_of_cell s c view).
Proof.
  intros Hs Hc. pose proof (proj1 (heatmap_index_In N view s) Hs) as Ht.
  unfold cell, heatmap_data in *. cbn [fillna index columns values pivot] in *.
  rewrite map_map.
  rewrite (nth_position_map _ _ s [] Hs), map_map.
  rewrite (nth_position_map _ _ c O Hc).
  destruct (lookup (s, c) (state_category_orders_filtered N view)) as [n|] eqn:E.
  - apply lookup_Some in E. apply state_category_orders_filtered_In in E. tauto.
  - destruct (orders_of_cell s c view) as [|r t] eqn:Eo; [reflexivity |].
    exfalso.
    apply (lookup_None _ _ (List.length (orders_of_cell s c view))) in E.
    apply E. apply state_category_orders_filtered_In.
    repeat split; [exact Ht |]. rewrite Eo. discriminate.
Qed.

(** C7, amended. The pivot is dense: it has one row for each of the top-N
    states and one column for each category ordered from such a state, every
    row has a cell for every column, and each cell holds the number of
    orders of its state and category, 0 when there is none.  The rows are in
    ascending order of the state name and the columns in ascending order of
    the category name. *)
Theorem heatmap_dense (N : nat) (view : DataFrame) :
  let m := heatmap_data N view in
  StronglySorted klt (index m) /\
  (forall s, In s (index m) <-> In s (top_n_states_list N view)) /\
  StronglySorted klt (columns m) /\
  (forall c, In c (columns m) <->
             exists r, In r view /\ In (Shipping_State r) (top_n_states_list N view) /\
                       Product_Category r = c) /\
  List.length (values m) = List.length (index m) /\
  Forall (fun row => List.length row = List.length (columns m)) (values m) /\
  Forall (fun s =>
            Forall (fun c => cell O m s c = List.length (orders_of_cell s c view))
                   (columns m))
         (index m).
Proof.
  intros m. repeat split.
  - apply unique_sorted_StronglySorted.
  - apply heatmap_index_In.
  - apply heatmap_index_In.
  - apply unique_sorted_StronglySorted.
  - apply heatmap_columns_In.
  - apply heatmap_columns_In.
  - unfold m, heatmap_data. cbn [fillna pivot values index]. rewrite !length_map.
    reflexivity.
  - unfold m, heatmap_data. cbn [fillna pivot values columns].
    apply Forall_forall. intros row Hin.
    apply in_map_iff in Hin. destruct Hin as (row' & <- & Hin).
    apply in_map_iff in Hin. destruct Hin as (i & <- & _).
    rewrite !length_map. reflexivity.
  - apply Forall_forall. intros s Hs. apply Forall_forall. intros c Hc.
    apply heatmap_cell; assumption.
Qed.

(** On the table [ranked_states] every quicksort ranks state "B" before
    state "A", and the rows of the pivot are "A", "B". *)
Lemma heatmap_rows_of_ranked_states :
  top_n_states_list 15 ranked_states = ["B"%string; "A"%string] /\
  index (heatmap_data 15 ranked_states) = ["A"%string; "B"%string].
Proof. split; vm_compute; reflexivity. Qed.

(** * Further properties of the module *)

(** ** The filter and the KPI figures *)

Lemma filter_partition_length {A : Type} (p : A -> bool) (l : list A) :
  List.length l
  = (List.length (filter (fun x => negb (p x)) l) + List.length (filter p l))%nat.
Proof.
  induction l as [|x t IH]; simpl; [reflexivity |].
  destruct (p x); simpl; lia.
Qed.

Lemma filter_all {A : Type} (p : A -> bool) (l : list A) :
  (forall x, In x l -> p x = true) -> filter p l = l.
Proof.
  induction l as [|x t IH]; simpl; intros Hall; [reflexivity |].
  rewrite (Hall x (or_introl eq_refl)). f_equal. apply IH.
  intros y Hy. apply Hall. right. exact Hy.
Qed.

Lemma filter_none {A : Type} (p : A -> bool) (l : list A) :
  (forall x, In x l -> p x = false) -> filter p l = [].
Proof.
  induction l as [|x t IH]; simpl; intros Hall; [reflexivity |].
  rewrite (Hall x (or_introl eq_refl)). apply IH.
  intros y Hy. apply Hall. right. exact Hy.
Qed.

Lemma is_cancelled_iff (r : Order) :
  is_cancelled r = true <-> Order_Status r = "Cancelled"%string.
Proof. unfold is_cancelled. apply String.eqb_eq. Qed.

Lemma filter_category_In (c : option string) (df : DataFrame) (r : Order) :
  In r (filter_category c df) -> In r df.
Proof.
  unfold filter_category. destruct c as [c|]; [| tauto].
  destruct (truthy (Some c) && negb (String.eqb c "All Categories")); [| tauto].
  rewrite filter_In. tauto.
Qed.

Lemma filter_dates_In (s e : option Z) (df : DataFrame) (r : Order) :
  In r (filter_dates s e df) -> In r df.
Proof.
  unfold filter_dates. destruct s, e; try tauto.
  rewrite filter_In. tauto.
Qed.

Lemma filtered_data_In_base (base : DataFrame) (s e : option Z)
    (c : option string) (r : Order) :
  In r (filtered_data base s e c) -> In r base.
Proof.
  unfold filtered_data. intros Hin.
  apply filter_category_In, filter_dates_In in Hin. exact Hin.
Qed.

(** X1. The two views of a request split the filtered frame: an order of
    the filtered frame is in the non-cancelled view exactly when its status
    is not "Cancelled", and the orders counted as cancelled by the KPI code
    are the rest. *)
Theorem filtered_views_partition (base : DataFrame)
    (start_date end_date : option Z) (selected_category : option string) :
  let filtered_all := filtered_data base start_date end_date selected_category in
  let filtered_nc :=
    filtered_non_cancelled base start_date end_date selected_category in
  List.length filtered_all
  = (List.length filtered_nc + List.length (filter is_cancelled filtered_all))%nat /\
  (forall r, In r filtered_nc <->
             In r filtered_all /\ Order_Status r <> "Cancelled"%string) /\
  (forall r, In r filtered_all -> In r base).
Proof.
  intros filtered_all filtered_nc. split; [apply filter_partition_length |].
  split.
  - intros r. unfold filtered_nc, filtered_non_cancelled, not_cancelled.
    fold filtered_all. rewrite filter_In, negb_true_iff. split.
    + intros (Hin & Hn). split; [exact Hin |].
      intros Hs. apply is_cancelled_iff in Hs. congruence.
    + intros (Hin & Hs). split; [exact Hin |].
      destruct (is_cancelled r) eqn:E; [| reflexivity].
      apply is_cancelled_iff in E. contradiction.
  - intros r. apply filtered_data_In_base.
Qed.

Lemma Qnat_le (a b : nat) : (a <= b)%nat -> (Qnat a <= Qnat b)%Q.
Proof.
  intros Hab. unfold Qnat. rewrite <- Zle_Qle. lia.
Qed.

Lemma Qnat_S_pos (n : nat) : (0 < Qnat (S n))%Q.
Proof.
  unfold Qnat. change 0%Q with (inject_Z 0). rewrite <- Zlt_Qlt. lia.
Qed.

Lemma Qnat_nonneg (n : nat) : (0 <= Qnat n)%Q.
Proof.
  unfold Qnat. change 0%Q with (inject_Z 0). rewrite <- Zle_Qle. lia.
Qed.

(** A count over a count it does not exceed, as a percentage. *)
Lemma percentage_range (c n : nat) :
  (c <= S n)%nat ->
  (0 <= Qnat c / Qnat (S n) * 100 /\ Qnat c / Qnat (S n) * 100 <= 100)%Q.
Proof.
  intros Hc. pose proof (Qnat_S_pos n) as Hpos. split.
  - apply Qmult_le_0_compat; [| discriminate].
    apply Qle_shift_div_l; [exact Hpos |].
    rewrite Qmult_0_l. apply Qnat_nonneg.
  - setoid_replace 100%Q with (1 * 100)%Q at 2 by ring.
    apply Qmult_le_compat_r; [| discriminate].
    apply Qle_shift_div_r; [exact Hpos |].
    rewrite Qmult_1_l. apply Qnat_le. exact Hc.
Qed.

(** X2. The cancellation rate a request shows is a percentage: it lies
    between 0 and 100. *)
Theorem cancellation_rate_range (st : Store)
    (start_date end_date : option Z) (selected_category : option string) :
  exists out st',
    update_dashboard st start_date end_date selected_category = Some (out, st') /\
    (0 <= cancellation_rate (out_kpi_cards out))%Q /\
    (cancellation_rate (out_kpi_cards out) <= 100)%Q.
Proof.
  unfold update_dashboard. rewrite kpi_cards_value. cbn [bind].
  eexists. eexists. split; [reflexivity |].
  cbn [out_kpi_cards cancellation_rate].
  set (filtered := filtered_data _ _ _ _).
  pose proof (filter_partition_length is_cancelled filtered) as Hlen.
  unfold len. destruct (List.length filtered) as [|n] eqn:En.
  - split; [apply Qle_refl | discriminate].
  - apply percentage_range. lia.
Qed.

(** X3. A range whose start lies after its end selects nothing, whatever
    the category. *)
Theorem inverted_range_empty (base : DataFrame) (s e : Z)
    (selected_category : option string) :
  e < s ->
  filtered_data base (Some s) (Some e) selected_category = [].
Proof.
  intros Hse. unfold filtered_data, filter_dates.
  rewrite filter_none.
  - unfold filter_category. destruct selected_category as [c|]; [| reflexivity].
    destruct (truthy (Some c) && negb (String.eqb c "All Categories")); reflexivity.
  - intros r _. apply andb_false_iff.
    destruct (Z.leb_spec s (Order_Date r)); [right | left; reflexivity].
    apply Z.leb_gt. lia.
Qed.

Lemma inverted_range_empty_witness :
  3 < 5 /\ filtered_data [order_on 4] (Some 5) (Some 3) None = [].
Proof.
  split; [lia |]. apply (inverted_range_empty [order_on 4] 5 3 None). lia.
Defined.

(** X4. When the filter selects nothing, the request still returns: all
    four KPI figures are 0, the daily series, the rankings and the promotion
    table are empty, and the cancellation chart is the placeholder. *)
Theorem empty_selection_bundle (st : Store)
    (start_date end_date : option Z) (selected_category : option string) :
  filtered_data (amazon_sales_data st) start_date end_date selected_category = [] ->
  exists out st',
    update_dashboard st start_date end_date selected_category = Some (out, st') /\
    out_kpi_cards out
      = {| total_orders := 0; total_revenue := 0;
           cancellation_rate := 0; avg_order_value := 0 |} /\
    out_daily_chart out = [] /\
    out_category_chart out = [] /\
    out_fulfillment_chart out = [] /\
    out_geo_chart out = [] /\
    out_cancel_chart out = NoCancellationData /\
    out_promo_chart out = [].
Proof.
  intros Hempty. unfold update_dashboard. rewrite Hempty.
  eexists. eexists. split; [reflexivity |].
  repeat split.
Qed.


(** ** The widgets *)

Lemma unique_In (x : string) (l : list string) : In x (unique l) <-> In x l.
Proof.
  induction l as [|a t IH]; simpl; [reflexivity |].
  rewrite filter_In, IH, negb_true_iff. split.
  - intros [-> | (Hin & _)]; auto.
  - intros [-> | Hin]; [left; reflexivity |].
    destruct (String.eqb a x) eqn:E.
    + apply String.eqb_eq in E. left. exact E.
    + right. auto.
Qed.

Lemma unique_NoDup (l : list string) : NoDup (unique l).
Proof.
  induction l as [|a t IH]; simpl; constructor.
  - rewrite filter_In, String.eqb_refl. intros (_ & E). discriminate.
  - apply NoDup_filter. exact IH.
Qed.

(** X5. The dropdown offers every category of the table, each once, and
    nothing else.  Choosing one of them (other than an empty name or a
    category that is itself called "All Categories", which the callback
    reads as no choice) with no date range selects exactly the orders of
    that category, and at least one. *)
Theorem dropdown_option_selects (base : DataFrame) :
  NoDup (category_options base) /\
  (forall c, In c (category_options base) <->
             exists r, In r base /\ Product_Category r = c) /\
  (forall c,
      In c (category_options base) ->
      c <> EmptyString -> c <> "All Categories"%string ->
      filtered_data base None None (Some c) = orders_of_category c base /\
      filtered_data base None None (Some c) <> []).
Proof.
  split; [apply unique_NoDup |]. split.
  - intros c. unfold category_options. rewrite unique_In, in_map_iff.
    split; intros (r & A & B); exists r; auto.
  - intros c Hin Hne Hall.
    assert (E : filtered_data base None None (Some c) = orders_of_category c base).
    { unfold filtered_data, filter_dates, filter_category, truthy.
      destruct (String.eqb c EmptyString) eqn:E1;
        [apply String.eqb_eq in E1; contradiction |].
      destruct (String.eqb c "All Categories") eqn:E2;
        [apply String.eqb_eq in E2; contradiction |].
      reflexivity. }
    split; [exact E |]. rewrite E.
    apply (proj1 (unique_In _ _)), in_map_iff in Hin. destruct Hin as (r & Er & Hr).
    assert (Hr' : In r (orders_of_category c base)).
    { unfold orders_of_category. apply filter_In. split; [exact Hr |].
      rewrite Er. apply String.eqb_refl. }
    intros Hnil. rewrite Hnil in Hr'. contradiction.
Qed.

Lemma dropdown_option_selects_witness :
  In "Top"%string (category_options two_categories) /\
  filtered_data two_categories None None (Some "Top"%string)
  = [order_of "Top" "KA" "Shipped" 50 None].
Proof.
  assert (Hin : In "Top"%string (category_options two_categories))
    by (right; left; reflexivity).
  split; [exact Hin |].
  destruct (proj2 (proj2 (dropdown_option_selects two_categories)) "Top"%string Hin)
    as (E & _); [discriminate | discriminate |].
  rewrite E. reflexivity.
Defined.

Lemma series_min_spec (l : list Z) (m : Z) :
  series_min l = Some m -> forall x, In x l -> m <= x.
Proof.
  destruct l as [|a t]; simpl; [discriminate |]. intros [= <-].
  induction t as [|b t IH]; simpl.
  - intros x [-> | []]. lia.
  - intros x [-> | [-> | Hin]].
    + specialize (IH x (or_introl eq_refl)). lia.
    + lia.
    + specialize (IH x (or_intror Hin)). lia.
Qed.

Lemma series_max_spec (l : list Z) (m : Z) :
  series_max l = Some m -> In m l /\ forall x, In x l -> x <= m.
Proof.
  destruct l as [|a t]; simpl; [discriminate |]. intros [= <-].
  induction t as [|b t IH]; simpl.
  - split; [left; reflexivity |]. intros x [-> | []]. lia.
  - destruct IH as (Hin & Hle). split.
    + destruct (Z.max_spec b (fold_right Z.max a t)) as [(_ & ->) | (_ & ->)].
      * destruct Hin as [E | Hin]; [left; exact E | right; right; exact Hin].
      * right. left. reflexivity.
    + intros x [-> | [-> | Hx]].
      * specialize (Hle x (or_introl eq_refl)). lia.
      * lia.
      * specialize (Hle x (or_intror Hx)). lia.
Qed.

Lemma ns_per_day_pos : 0 < ns_per_day.
Proof. reflexivity. Qed.

Lemma to_midnight_le (t : Z) : to_midnight t <= t.
Proof.
  unfold to_midnight, dt_date. rewrite Z.mul_comm.
  apply Z.mul_div_le. exact ns_per_day_pos.
Qed.

Lemma to_midnight_fixed (t : Z) : t mod ns_per_day = 0 -> to_midnight t = t.
Proof.
  intros Hm. unfold to_midnight, dt_date.
  pose proof (Z.div_mod t ns_per_day ltac:(discriminate)) as Hd.
  rewrite Hm in Hd. lia.
Qed.

Lemma filter_category_all (df : DataFrame) :
  filter_category (Some "All Categories"%string) df = df.
Proof. reflexivity. Qed.

(** X6. With the range the date picker starts from and "All Categories", a
    request keeps the orders that are not later than midnight of the last
    day of the table, and only those: the start of the range excludes
    nothing, the end excludes the orders of the last day that carry a time
    of day. *)
Theorem default_range_selection (base : DataFrame) (r : Order) :
  In r (filtered_data base (picker_start_date base) (picker_end_date base)
          (Some "All Categories"%string)) <->
  In r base /\
  exists m, series_max (map Order_Date base) = Some m /\ Order_Date r <= to_midnight m.
Proof.
  unfold filtered_data. rewrite filter_category_all.
  unfold picker_start_date, picker_end_date.
  destruct (series_min (map Order_Date base)) as [lo|] eqn:Emin;
    destruct (series_max (map Order_Date base)) as [hi|] eqn:Emax;
    try (destruct base; simpl in Emin, Emax; discriminate).
  - cbn [option_map filter_dates]. rewrite filter_In, andb_true_iff, !Z.leb_le.
    split.
    + intros (Hin & _ & Hle). split; [exact Hin |]. exists hi. auto.
    + intros (Hin & m & [= <-] & Hle). repeat split; try assumption.
      pose proof (series_min_spec _ _ Emin (Order_Date r) (in_map _ _ _ Hin)).
      pose proof (to_midnight_le lo). lia.
  - destruct base; [| simpl in Emin; discriminate]. simpl.
    split; [contradiction | intros ([] & _)].
Qed.

(** X7. When the timestamps of the table are dates, the range the date
    picker starts from, with "All Categories", selects the whole table. *)
Theorem default_range_selects_all (base : DataFrame) :
  date_only base ->
  filtered_data base (picker_start_date base) (picker_end_date base)
    (Some "All Categories"%string) = base.
Proof.
  intros Hd. unfold filtered_data. rewrite filter_category_all.
  unfold picker_start_date, picker_end_date.
  destruct (series_min (map Order_Date base)) as [lo|] eqn:Emin;
    destruct (series_max (map Order_Date base)) as [hi|] eqn:Emax;
    try (destruct base; simpl in Emin, Emax; discriminate); [| reflexivity].
  cbn [option_map filter_dates]. apply filter_all. intros r Hin.
  apply andb_true_iff. rewrite !Z.leb_le.
  pose proof (series_min_spec _ _ Emin (Order_Date r) (in_map _ _ _ Hin)) as Hlo.
  destruct (series_max_spec _ _ Emax) as (Hhi_in & Hhi).
  specialize (Hhi (Order_Date r) (in_map _ _ _ Hin)).
  apply in_map_iff in Hhi_in. destruct Hhi_in as (r' & E' & Hr').
  unfold date_only in Hd. rewrite Forall_forall in Hd.
  pose proof (Hd r' Hr') as Hm. rewrite E' in Hm.
  rewrite (to_midnight_fixed hi Hm).
  pose proof (to_midnight_le lo). lia.
Qed.

Lemma default_range_selects_all_witness :
  date_only [order_on 0; order_on ns_per_day] /\
  filtered_data [order_on 0; order_on ns_per_day]
    (picker_start_date [order_on 0; order_on ns_per_day])
    (picker_end_date [order_on 0; order_on ns_per_day])
    (Some "All Categories"%string)
  = [order_on 0; order_on ns_per_day].
Proof.
  assert (Hd : date_only [order_on 0; order_on ns_per_day])
    by (repeat constructor).
  split; [exact Hd |].
  apply (default_range_selects_all [order_on 0; order_on ns_per_day] Hd).
Defined.

(** ** Sessions *)

Lemma filter_map_comm {A B : Type} (f : A -> B) (p : B -> bool) (l : list A) :
  filter p (map f l) = map f (filter (fun x => p (f x)) l).
Proof.
  induction l as [|x t IH]; simpl; [reflexivity |].
  destruct (p (f x)); simpl; rewrite IH; reflexivity.
Qed.

Lemma not_cancelled_set_Month_Name (df : DataFrame) :
  not_cancelled (map set_Month_Name df) = map set_Month_Name (not_cancelled df).
Proof. unfold not_cancelled. rewrite filter_map_comm. reflexivity. Qed.

Lemma col_sum_set_Month_Name (df : DataFrame) :
  col_sum (map set_Month_Name df) = col_sum df.
Proof.
  induction df as [|r t IH]; simpl; [reflexivity | rewrite IH; reflexivity].
Qed.

Lemma col_count_set_Month_Name (df : DataFrame) :
  col_count (map set_Month_Name df) = col_count df.
Proof.
  unfold col_count. rewrite filter_map_comm, length_map. reflexivity.
Qed.

Lemma col_mean_set_Month_Name (df : DataFrame) :
  col_mean (map set_Month_Name df) = col_mean df.
Proof.
  unfold col_mean. rewrite col_count_set_Month_Name, col_sum_set_Month_Name.
  reflexivity.
Qed.

Lemma group_rows_set_Month_Name {K : Type} `{KeyOrd K} (key : Order -> K)
    (df : DataFrame) (k : K) :
  (forall r, key (set_Month_Name r) = key r) ->
  group_rows key (map set_Month_Name df) k = map set_Month_Name (group_rows key df k).
Proof.
  intros Hkey. unfold group_rows. rewrite filter_map_comm. f_equal.
  apply filter_ext. intros r. rewrite Hkey. reflexivity.
Qed.

Lemma map_key_set_Month_Name {K : Type} (key : Order -> K) (df : DataFrame) :
  (forall r, key (set_Month_Name r) = key r) ->
  map key (map set_Month_Name df) = map key df.
Proof.
  intros Hkey. rewrite map_map. apply map_ext. exact Hkey.
Qed.

(** No aggregation reads the [Month_Name] column. *)
Lemma agg_sales_set_Month_Name {K : Type} `{KeyOrd K} (key : Order -> K)
    (df : DataFrame) :
  (forall r, key (set_Month_Name r) = key r) ->
  agg_sales key (map set_Month_Name df) = agg_sales key df.
Proof.
  intros Hkey. unfold agg_sales, groupby.
  rewrite (map_key_set_Month_Name key df Hkey), !map_map.
  apply map_ext. intros k. cbn [fst snd].
  rewrite (group_rows_set_Month_Name key df k Hkey).
  unfold len. rewrite length_map, col_sum_set_Month_Name. reflexivity.
Qed.

Lemma promo_impact_set_Month_Name (df : DataFrame) :
  promo_impact (map set_Month_Name df) = promo_impact df.
Proof.
  unfold promo_impact, groupby.
  rewrite (map_key_set_Month_Name has_promo df (fun r => eq_refl)), !map_map.
  apply map_ext. intros k. cbn [fst snd].
  rewrite (group_rows_set_Month_Name has_promo df k (fun r => eq_refl)).
  unfold len.
  rewrite length_map, col_sum_set_Month_Name, col_mean_set_Month_Name. reflexivity.
Qed.

(** What a session keeps: the non-cancelled table is the one taken at
    start-up, and the base table is the report, with or without the
    [Month_Name] column set. *)
Lemma reachable_tables (report : DataFrame) (st : Store) :
  reachable report st ->
  non_cancelled_orders st = not_cancelled report /\
  (amazon_sales_data st = report \/
   amazon_sales_data st = map set_Month_Name report).
Proof.
  induction 1 as [| st s e c out st' Hr IH E].
  - split; [reflexivity | left; reflexivity].
  - apply update_dashboard_inv in E.
    destruct E as (_ & _ & _ & _ & _ & Eb & En & _).
    destruct IH as (IHn & IHb). split; [congruence |].
    right. rewrite Eb. destruct IHb as [-> | ->]; [reflexivity |].
    rewrite map_map. apply map_ext. intros r. reflexivity.
Qed.

Lemma update_dashboard_inv_more (st : Store)
    (start_date end_date : option Z) (selected_category : option string)
    (out : Bundle) (st' : Store) :
  update_dashboard st start_date end_date selected_category = Some (out, st') ->
  let filtered :=
    filtered_data (amazon_sales_data st) start_date end_date selected_category in
  Some (out_kpi_cards out) = kpi_cards filtered (not_cancelled filtered) /\
  out_fulfillment_chart out = fulfillment_data (not_cancelled filtered) /\
  out_geo_chart out = state_sales_top (not_cancelled filtered) /\
  out_fig_stacked_bar out = stacked_bar_data 15 (non_cancelled_orders st).
Proof.
  unfold update_dashboard.
  destruct (kpi_cards _ _) as [k|] eqn:Ek; [| discriminate]. cbn [bind].
  intros E. inversion E; subst; clear E. cbn. repeat split; reflexivity.
Qed.

(** X8. Throughout a session the state by category tables do not move:
    whatever requests came before and whatever the request asks for, the
    pivot and the stacked bar table are those of the non-cancelled orders of
    the report read at start-up, and the base table differs from that report
    in the [Month_Name] column at most. *)
Theorem session_invariants (report : DataFrame) (st : Store)
    (start_date end_date : option Z) (selected_category : option string) :
  reachable report st ->
  non_cancelled_orders st = not_cancelled report /\
  Forall2 same_but_Month_Name report (amazon_sales_data st) /\
  exists out st',
    update_dashboard st start_date end_date selected_category = Some (out, st') /\
    out_heatmap_data out = heatmap_data 15 (not_cancelled report) /\
    out_fig_stacked_bar out = stacked_bar_data 15 (not_cancelled report).
Proof.
  intros Hr. destruct (reachable_tables report st Hr) as (En & Eb).
  split; [exact En |]. split.
  - destruct Eb as [-> | ->]; [| apply set_Month_Name_same].
    clear. induction report as [|r t IH]; constructor; [| exact IH].
    unfold same_but_Month_Name. repeat split; reflexivity.
  - destruct (update_dashboard_returns st start_date end_date selected_category)
      as (out & st' & E).
    exists out, st'. split; [exact E |].
    pose proof (update_dashboard_inv _ _ _ _ _ _ E) as (_ & _ & Eh & _).
    pose proof (update_dashboard_inv_more _ _ _ _ _ _ E) as (_ & _ & _ & Es).
    rewrite Eh, Es, En. split; reflexivity.
Qed.

(** X9. At any point of a session, a request with no date range and "All
    Categories" gives the tables of the chart builders over the unfiltered
    tables: the KPI figures, the daily series, the category and state
    rankings, the fulfilment split and the promotion table. *)
Theorem unfiltered_request_matches_builders (report : DataFrame) (st : Store) :
  reachable report st ->
  exists out st',
    update_dashboard st None None (Some "All Categories"%string) = Some (out, st') /\
    Some (out_kpi_cards out) = create_kpi_cards st /\
    out_daily_chart out = create_daily_sales_chart st /\
    out_category_chart out = create_category_sales_chart st /\
    out_fulfillment_chart out = create_fulfillment_pie_chart st /\
    out_geo_chart out = create_geographic_sales_map st /\
    out_promo_chart out = create_promo_impact_chart st.
Proof.
  intros Hr. destruct (reachable_tables report st Hr) as (En & Eb).
  destruct (update_dashboard_returns st None None (Some "All Categories"%string))
    as (out & st' & E).
  exists out, st'. split; [exact E |].
  pose proof (update_dashboard_inv _ _ _ _ _ _ E) as (Ed & Ec & _ & _ & Ep & _).
  pose proof (update_dashboard_inv_more _ _ _ _ _ _ E) as (Ek & Ef & Eg & _).
  unfold filtered_non_cancelled in Ec, Ep.
  change (filtered_data (amazon_sales_data st) None None (Some "All Categories"%string))
    with (amazon_sales_data st) in *.
  unfold create_kpi_cards, create_daily_sales_chart, create_category_sales_chart,
    create_fulfillment_pie_chart, create_geographic_sales_map, create_promo_impact_chart.
  rewrite Ek, Ed, Ec, Ef, Eg, Ep, En.
  unfold category_sales, fulfillment_data, state_sales_top, rank_sales.
  destruct Eb as [-> | ->].
  - repeat split; reflexivity.
  - rewrite not_cancelled_set_Month_Name.
    rewrite !agg_sales_set_Month_Name by (intros r; reflexivity).
    rewrite promo_impact_set_Month_Name.
    repeat split; try reflexivity.
    rewrite !kpi_cards_value. unfold len.
    rewrite (length_map set_Month_Name (not_cancelled report)).
    rewrite col_sum_set_Month_Name. reflexivity.
Qed.


(** ** Cross tables *)

Lemma keqb_string (a b : string) : keqb a b = String.eqb a b.
Proof.
  destruct (keqb a b) eqn:E1; destruct (String.eqb a b) eqn:E2;
    try reflexivity; exfalso.
  - apply (proj1 (keqb_eq _ _)) in E1. subst. rewrite String.eqb_refl in E2.
    discriminate.
  - apply String.eqb_eq in E2. subst. rewrite keqb_refl in E1. discriminate.
Qed.

Lemma filter_filter {A : Type} (p q : A -> bool) (l : list A) :
  filter p (filter q l) = filter (fun x => q x && p x) l.
Proof.
  induction l as [|x t IH]; simpl; [reflexivity |].
  destruct (q x); simpl; [destruct (p x) |]; rewrite IH; reflexivity.
Qed.

Lemma combine_map_r {A B : Type} (f : A -> B) (l : list A) :
  combine l (map f l) = map (fun x => (x, f x)) l.
Proof.
  induction l as [|x t IH]; simpl; [reflexivity | rewrite IH; reflexivity].
Qed.

Lemma group_rows_pair (f g : Order -> string) (df : DataFrame) (a b : string) :
  group_rows (fun r => (f r, g r)) df (a, b) = pair_rows f g a b df.
Proof.
  unfold group_rows, pair_rows. apply filter_ext. intros r.
  apply keqb_pair_string.
Qed.

Lemma pair_rows_In (f g : Order -> string) (a b : string) (df : DataFrame) (r : Order) :
  In r (pair_rows f g a b df) <-> In r df /\ f r = a /\ g r = b.
Proof.
  unfold pair_rows. rewrite filter_In, andb_true_iff, !String.eqb_eq. reflexivity.
Qed.

(** The entries of a size table on two columns: the pairs that occur, each
    with the number of rows that carry it. *)
Lemma groupby_size_pair_In (f g : Order -> string) (df : DataFrame)
    (a b : string) (n : nat) :
  In ((a, b), n) (groupby_size (fun r => (f r, g r)) df) <->
  pair_rows f g a b df <> [] /\ n = List.length (pair_rows f g a b df).
Proof.
  rewrite groupby_size_In, group_rows_pair, in_map_iff. unfold len. split.
  - intros ((r & Er & Hr) & En). split; [| exact En].
    intros Hnil.
    assert (Hin : In r (pair_rows f g a b df))
      by (apply pair_rows_In; inversion Er; auto).
    rewrite Hnil in Hin. contradiction.
  - intros (Hne & En). split; [| exact En].
    destruct (pair_rows f g a b df) as [|r t] eqn:E; [contradiction |].
    assert (Hin : In r (pair_rows f g a b df)) by (rewrite E; left; reflexivity).
    apply pair_rows_In in Hin. destruct Hin as (Hr & <- & <-).
    exists r. auto.
Qed.

(** Looking a pair up in the size table and filling the gap with 0 counts
    the rows of the pair. *)
Lemma size_lookup_fill0 (f g : Order -> string) (df : DataFrame) (a b : string) :
  fill0 (lookup (a, b) (groupby_size (fun r => (f r, g r)) df))
  = List.length (pair_rows f g a b df).
Proof.
  destruct (lookup (a, b) (groupby_size (fun r => (f r, g r)) df)) as [n|] eqn:E;
    simpl.
  - apply lookup_Some, groupby_size_pair_In in E. tauto.
  - destruct (pair_rows f g a b df) as [|r t] eqn:Ep; [reflexivity |].
    exfalso.
    apply (lookup_None _ _ (List.length (pair_rows f g a b df))) in E.
    apply E. apply groupby_size_pair_In. rewrite Ep. split; [discriminate | reflexivity].
Qed.

(** One row of a cross table adds up to the rows of its label. *)
Lemma pair_rows_total (f g : Order -> string) (df : DataFrame) (a : string)
    (cols : list string) :
  NoDup cols -> (forall r, In r df -> f r = a -> In (g r) cols) ->
  total (map (fun b => List.length (pair_rows f g a b df)) cols)
  = List.length (filter (fun r => String.eqb (f r) a) df).
Proof.
  intros Hnd Hcov.
  assert (Hs := group_sizes_sum g (filter (fun r => String.eqb (f r) a) df) cols Hnd).
  unfold len in Hs. rewrite <- Hs.
  - unfold total. f_equal. apply map_ext. intros b.
    unfold group_rows, pair_rows. rewrite filter_filter. f_equal.
    apply filter_ext. intros r. rewrite keqb_string. reflexivity.
  - intros r Hr. apply filter_In in Hr. destruct Hr as (Hr & Ea).
    apply String.eqb_eq in Ea. apply Hcov; assumption.
Qed.

(** ** Cancellation tables *)

Lemma cancel_index_In (df : DataFrame) (c : string) :
  In c (index (cancel_by_category df)) <->
  exists r, In r df /\ Product_Category r = c.
Proof.
  unfold cancel_by_category, unstack. cbn [index fillna].
  rewrite pivot_index_In. split.
  - intros ([[c' s] n] & Hin & E). simpl in E. subst c'.
    apply groupby_size_In in Hin. destruct Hin as [Hin _].
    apply in_map_iff in Hin. destruct Hin as (r & Er & Hr).
    exists r. split; [exact Hr | congruence].
  - intros (r & Hr & E).
    exists ((Product_Category r, Order_Status r),
            len (group_rows (fun r => (Product_Category r, Order_Status r)) df
                   (Product_Category r, Order_Status r))).
    split; [| exact E].
    apply groupby_size_In. split; [| reflexivity].
    apply in_map_iff. exists r. split; [reflexivity | exact Hr].
Qed.

Lemma cancel_index_sorted (df : DataFrame) :
  StronglySorted klt (index (cancel_by_category df)).
Proof. apply unique_sorted_StronglySorted. Qed.

Lemma cancel_columns_NoDup (df : DataFrame) :
  NoDup (columns (cancel_by_category df)).
Proof. apply unique_sorted_NoDup. Qed.

(** The rows of the cross table, label by label. *)
Lemma cancel_rows (df : DataFrame) :
  combine (index (cancel_by_category df)) (values (cancel_by_category df))
  = map (fun c =>
           (c, map (fun s => List.length
                               (pair_rows Product_Category Order_Status c s df))
                   (columns (cancel_by_category df))))
        (index (cancel_by_category df)).
Proof.
  unfold cancel_by_category, unstack, fillna, pivot. cbn [index columns values].
  rewrite map_map, combine_map_r. apply map_ext. intros c. f_equal.
  rewrite map_map. apply map_ext. intros s.
  apply (size_lookup_fill0 Product_Category Order_Status).
Qed.

Lemma cancel_row_total (df : DataFrame) (c : string) :
  fold_right Nat.add O
    (map (fun s => List.length (pair_rows Product_Category Order_Status c s df))
         (columns (cancel_by_category df)))
  = List.length (orders_of_category c df).
Proof.
  apply (pair_rows_total Product_Category Order_Status df c).
  - apply cancel_columns_NoDup.
  - intros r Hr _. apply cancel_columns_In. exists r. auto.
Qed.

Lemma cancel_row_cancelled (df : DataFrame) (c : string) :
  In "Cancelled"%string (columns (cancel_by_category df)) ->
  nth (position "Cancelled"%string (columns (cancel_by_category df)))
      (map (fun s => List.length (pair_rows Product_Category Order_Status c s df))
           (columns (cancel_by_category df))) O
  = List.length (filter is_cancelled (orders_of_category c df)).
Proof.
  intros Hin. rewrite (nth_position_map _ _ _ O Hin).
  unfold pair_rows, orders_of_category. rewrite filter_filter. reflexivity.
Qed.

Lemma Qnat_lt_inv (a b : nat) : (Qnat a < Qnat b)%Q -> (a < b)%nat.
Proof. unfold Qnat. rewrite <- Zlt_Qlt. lia. Qed.

Lemma Qnat_le_inv (a b : nat) : (Qnat a <= Qnat b)%Q -> (a <= b)%nat.
Proof. unfold Qnat. rewrite <- Zle_Qle. lia. Qed.

Lemma Qnat_eq_inv (a b : nat) : (Qnat a == Qnat b)%Q -> a = b.
Proof.
  unfold Qnat, Qeq. simpl. lia.
Qed.

Lemma filter_eqb_NoDup (l : list string) (c : string) :
  NoDup l -> In c l -> filter (fun x => String.eqb x c) l = [c].
Proof.
  induction 1 as [|a l Hna Hnd IH]; simpl; [contradiction |].
  intros [-> | Hin].
  - rewrite String.eqb_refl. f_equal. apply filter_none.
    intros x Hx. apply String.eqb_neq. intros ->. contradiction.
  - assert (Hac : String.eqb a c = false)
      by (apply String.eqb_neq; intros ->; contradiction).
    rewrite Hac. apply IH. exact Hin.
Qed.

Lemma flat_map_singleton {A B : Type} (f : A -> list B) (g : A -> B) (l : list A) :
  (forall x, In x l -> f x = [g x]) -> flat_map f l = map g l.
Proof.
  induction l as [|x t IH]; simpl; intros Hall; [reflexivity |].
  rewrite (Hall x (or_introl eq_refl)), IH; [reflexivity |].
  intros y Hy. apply Hall. right. exact Hy.
Qed.

(** The wide table of the chart, category by category. *)
Lemma plot_data_rows (df : DataFrame) :
  In "Cancelled"%string (columns (cancel_by_category df)) ->
  plot_data (cancel_by_category df)
  = map (fun c =>
           let orders := orders_of_category c df in
           {| cancel_Product_Category := c;
              cancel_Cancelled := List.length (filter is_cancelled orders);
              cancel_Not_Cancelled := List.length (not_cancelled orders);
              cancel_Total_Orders := List.length orders;
              cancel_Cancelled_pct :=
                (Qnat (List.length (filter is_cancelled orders))
                 / Qnat (List.length orders) * 100)%Q |})
        (index (cancel_by_category df)).
Proof.
  intros Hc. unfold plot_data. rewrite cancel_rows, map_map.
  apply map_ext. intros c. cbn [fst snd].
  rewrite cancel_row_total, (cancel_row_cancelled df c Hc).
  pose proof (filter_partition_length is_cancelled (orders_of_category c df))
    as Hpart.
  unfold not_cancelled in *. cbn zeta. f_equal. lia.
Qed.

(** The join finds, for each bar, the one label of its category and
    status. *)
Lemma merge_rows (df : DataFrame) :
  In "Cancelled"%string (columns (cancel_by_category df)) ->
  let pd := plot_data (cancel_by_category df) in
  merge_on (count_data pd) (label_data pd)
  = map (cancelled_bar df) (index (cancel_by_category df))
    ++ map (not_cancelled_bar df) (index (cancel_by_category df)).
Proof.
  intros Hc pd. unfold pd. rewrite (plot_data_rows df Hc).
  set (idx := index (cancel_by_category df)).
  assert (Hnd : NoDup idx)
    by (apply StronglySorted_klt_NoDup, cancel_index_sorted).
  unfold merge_on, count_data, label_data.
  rewrite flat_map_app, !map_map. cbn zeta.
  cbn [cancel_Product_Category cancel_Total_Orders cancel_Cancelled
       cancel_Not_Cancelled cancel_Cancelled_pct].
  f_equal.
  - rewrite flat_map_concat_map, map_map, <- flat_map_concat_map.
    apply flat_map_singleton. intros c Hin.
    cbn [count_Product_Category count_Status count_Total_Orders count_Count].
    rewrite filter_app, !filter_map_comm.
    cbn [label_Product_Category label_Status label_Label].
    change (String.eqb "Cancelled" "Cancelled") with true.
    change (String.eqb "Not_Cancelled" "Not_Cancelled") with true.
    change (String.eqb "Not_Cancelled" "Cancelled") with false.
    change (String.eqb "Cancelled" "Not_Cancelled") with false.
    rewrite (filter_none (fun x => String.eqb x c && false) idx)
      by (intros x _; apply andb_false_r).
    rewrite (filter_ext (fun x => String.eqb x c && true) (fun x => String.eqb x c))
      by (intros x; apply andb_true_r).
    rewrite (filter_eqb_NoDup idx c Hnd Hin). reflexivity.
  - rewrite flat_map_concat_map, map_map, <- flat_map_concat_map.
    apply flat_map_singleton. intros c Hin.
    cbn [count_Product_Category count_Status count_Total_Orders count_Count].
    rewrite filter_app, !filter_map_comm.
    cbn [label_Product_Category label_Status label_Label].
    change (String.eqb "Cancelled" "Cancelled") with true.
    change (String.eqb "Not_Cancelled" "Not_Cancelled") with true.
    change (String.eqb "Not_Cancelled" "Cancelled") with false.
    change (String.eqb "Cancelled" "Not_Cancelled") with false.
    rewrite (filter_none (fun x => String.eqb x c && false) idx)
      by (intros x _; apply andb_false_r).
    rewrite (filter_ext (fun x => String.eqb x c && true) (fun x => String.eqb x c))
      by (intros x; apply andb_true_r).
    rewrite (filter_eqb_NoDup idx c Hnd Hin). reflexivity.
Qed.

(** X10. When the filtered frame holds a cancelled order, the table the
    cancellation chart of a request is drawn from has two rows for every
    category of the frame, also for the categories without any cancellation:
    a "Cancelled" row with the number of cancelled orders of the category
    and their percentage as label, and a "Not_Cancelled" row with the number
    of the other orders and no label.  Both carry the number of orders of
    the category, which is never 0, and the rows come in descending order of
    that number. *)
Theorem cancel_volume_rows (filtered : DataFrame) :
  (exists r, In r filtered /\ Order_Status r = "Cancelled"%string) ->
  exists final_data categories,
    cancel_chart filtered = CancelVolume final_data /\
    StronglySorted klt categories /\
    (forall c, In c categories <-> exists r, In r filtered /\ Product_Category r = c) /\
    Permutation final_data
      (map (cancelled_bar filtered) categories
       ++ map (not_cancelled_bar filtered) categories) /\
    StronglySorted
      (fun x y => (final_Total_Orders y <= final_Total_Orders x)%nat) final_data /\
    Forall (fun row => (1 <= final_Total_Orders row)%nat) final_data.
Proof.
  intros (r0 & Hr0 & Es0).
  assert (Hc : In "Cancelled"%string (columns (cancel_by_category filtered)))
    by (apply cancel_columns_In; eauto).
  unfold cancel_chart. rewrite (proj2 (isin_In _ _) Hc).
  cbn zeta. rewrite (merge_rows filtered Hc).
  set (idx := index (cancel_by_category filtered)).
  set (bars := map (cancelled_bar filtered) idx ++ map (not_cancelled_bar filtered) idx).
  exists (sort_values_desc (fun r => Qnat (final_Total_Orders r)) bars), idx.
  split; [reflexivity |].
  split; [apply cancel_index_sorted |].
  split; [intros c; apply cancel_index_In |].
  split; [apply sort_values_desc_Permutation |].
  split.
  - eapply StronglySorted_impl; [| apply sort_values_desc_le].
    intros x y Hle. apply Qnat_le_inv. exact Hle.
  - apply Forall_forall. intros row Hin.
    apply (Permutation_in _ (sort_values_desc_Permutation _ _)) in Hin.
    assert (Hrow : exists c, In c idx /\
                     final_Total_Orders row = List.length (orders_of_category c filtered)).
    { unfold bars in Hin. apply in_app_or in Hin.
      destruct Hin as [Hin | Hin]; apply in_map_iff in Hin;
        destruct Hin as (c & <- & Hc'); exists c; auto. }
    destruct Hrow as (c & Hc' & ->).
    apply cancel_index_In in Hc'. destruct Hc' as (r & Hr & Er).
    assert (Hin' : In r (orders_of_category c filtered)).
    { unfold orders_of_category. apply filter_In. split; [exact Hr |].
      rewrite Er. apply String.eqb_refl. }
    destruct (orders_of_category c filtered); [contradiction | simpl; lia].
Qed.

Lemma lex_desc_le {A : Type} (by_ : A -> Q) (R : A -> A -> Prop) (x y : A) :
  lex_desc by_ R x y -> (by_ y <= by_ x)%Q.
Proof.
  intros [Hlt | [Heq _]]; [apply Qlt_le_weak; exact Hlt | rewrite Heq; apply Qle_refl].
Qed.

Lemma groupby_size_sorted {K : Type} `{KeyOrdLaws K} (key : Order -> K)
    (df : DataFrame) :
  StronglySorted (fun p q => klt (fst p) (fst q)) (groupby_size key df).
Proof.
  apply StronglySorted_map_inv. rewrite groupby_size_keys.
  apply unique_sorted_StronglySorted.
Qed.

Lemma total_Permutation (l l' : list nat) : Permutation l l' -> total l = total l'.
Proof.
  unfold total. induction 1; simpl; lia.
Qed.

Lemma groupby_size_total {K : Type} `{KeyOrdLaws K} (key : Order -> K)
    (df : DataFrame) :
  total (map snd (groupby_size key df)) = List.length df.
Proof.
  unfold groupby_size, groupby. rewrite !map_map. cbn [fst snd].
  apply (group_sizes_sum key df).
  - apply unique_sorted_NoDup.
  - intros r Hr. apply unique_sorted_In, in_map. exact Hr.
Qed.

Lemma group_rows_string (key : Order -> string) (df : DataFrame) (k : string) :
  group_rows key df k = filter (fun r => String.eqb (key r) k) df.
Proof.
  unfold group_rows. apply filter_ext. intros r. apply keqb_string.
Qed.

(** X11. When the table holds a cancelled order, the start-up cancellation
    chart shows at most ten categories, in descending order of their
    cancellation rate.  The rate of a row is the share of cancelled orders
    among the orders of its category, a percentage between 0 and 100, and no
    row is without orders. *)
Theorem create_cancellation_analysis_rows (st : Store) :
  (exists r, In r (amazon_sales_data st) /\ Order_Status r = "Cancelled"%string) ->
  exists rows,
    create_cancellation_analysis st = CancelRates rows /\
    (List.length rows <= 10)%nat /\
    StronglySorted
      (fun x y => (rate_Cancellation_Rate y <= rate_Cancellation_Rate x)%Q) rows /\
    Forall (fun row =>
              let orders :=
                orders_of_category (rate_Product_Category row) (amazon_sales_data st) in
              rate_Total row = List.length orders /\
              rate_Cancelled row = List.length (filter is_cancelled orders) /\
              (1 <= rate_Total row)%nat /\
              (rate_Cancellation_Rate row
               == Qnat (rate_Cancelled row) / Qnat (rate_Total row) * 100)%Q /\
              (0 <= rate_Cancellation_Rate row)%Q /\
              (rate_Cancellation_Rate row <= 100)%Q)
           rows.
Proof.
  intros (r0 & Hr0 & Es0).
  set (df := amazon_sales_data st) in *.
  assert (Hc : In "Cancelled"%string (columns (cancel_by_category df)))
    by (apply cancel_columns_In; eauto).
  unfold create_cancellation_analysis. fold df. rewrite (proj2 (isin_In _ _) Hc).
  eexists. split; [reflexivity |].
  rewrite cancel_rows, map_map. cbn [fst snd].
  set (rows0 := map _ (index (cancel_by_category df))).
  split; [unfold head; rewrite length_firstn; lia |].
  split.
  - apply StronglySorted_firstn, sort_values_desc_le.
  - apply Forall_forall. intros row Hin.
    apply In_firstn in Hin.
    apply (Permutation_in _ (sort_values_desc_Permutation _ _)) in Hin.
    unfold rows0 in Hin. apply in_map_iff in Hin. destruct Hin as (c & <- & Hc').
    cbn [rate_Product_Category rate_Total rate_Cancelled rate_Cancellation_Rate].
    rewrite cancel_row_total, (cancel_row_cancelled df c Hc).
    pose proof (filter_partition_length is_cancelled (orders_of_category c df))
      as Hpart.
    apply cancel_index_In in Hc'. destruct Hc' as (r & Hr & Er).
    assert (Hin : In r (orders_of_category c df)).
    { unfold orders_of_category. apply filter_In. split; [exact Hr |].
      rewrite Er. apply String.eqb_refl. }
    destruct (List.length (orders_of_category c df)) as [|n] eqn:En;
      [destruct (orders_of_category c df); [contradiction | discriminate] |].
    repeat split; try lia; try reflexivity;
      apply percentage_range; lia.
Qed.

(** ** Cancellations by state *)

(** X12. The table behind the bubble chart is read from the unfiltered base
    table: it has a row for each state with a cancelled order, with the
    number of cancelled orders of the state (at least one), in descending
    order of that number.  The total the percentages are taken of is the
    number of cancelled orders of the table, and at most ten rows are
    shown. *)
Theorem cancellations_by_state_rows (st : Store) :
  total_cancellations st = List.length (filter is_cancelled (amazon_sales_data st)) /\
  StronglySorted (fun p q => (snd q <= snd p)%nat) (cancellations_by_state st) /\
  (forall s, In s (map fst (cancellations_by_state st)) <->
             exists r, In r (amazon_sales_data st) /\
                       Order_Status r = "Cancelled"%string /\ Shipping_State r = s) /\
  Forall (fun p =>
            snd p = List.length (orders_of_state (fst p) (cancelled_orders_df st)) /\
            (1 <= snd p)%nat)
         (cancellations_by_state st) /\
  (List.length (top_cancellations st) <= 10)%nat.
Proof.
  set (df := cancelled_orders_df st).
  assert (Hperm : Permutation (cancellations_by_state st)
                    (groupby_size Shipping_State df))
    by apply sort_values_desc_Permutation.
  assert (Hrow : forall p, In p (cancellations_by_state st) ->
            In (fst p) (map Shipping_State df) /\
            snd p = List.length (orders_of_state (fst p) df)).
  { intros [s n] Hin. apply (Permutation_in _ Hperm), groupby_size_In in Hin.
    destruct Hin as (Hk & ->). split; [exact Hk |].
    rewrite group_rows_string. reflexivity. }
  split.
  - change (total_cancellations st)
      with (total (map snd (cancellations_by_state st))).
    rewrite (total_Permutation _ _ (Permutation_map snd Hperm)).
    apply groupby_size_total.
  - split.
    + eapply StronglySorted_impl; [| apply sort_values_desc_le].
      intros p q Hle. apply Qnat_le_inv. exact Hle.
    + split.
      * intros s.
        assert (Hs : In s (map fst (cancellations_by_state st)) <->
                     In s (map Shipping_State df)).
        { rewrite <- (unique_sorted_In s (map Shipping_State df)).
          rewrite <- (groupby_size_keys Shipping_State df).
          split; apply Permutation_in;
            [| symmetry]; apply Permutation_map; exact Hperm. }
        rewrite Hs, in_map_iff. unfold df.
        split.
        -- intros (r & Er & Hr). unfold cancelled_orders_df in Hr.
           apply filter_In in Hr. destruct Hr as (Hr & Hc).
           apply is_cancelled_iff in Hc. exists r. auto.
        -- intros (r & Hr & Hc & Er). exists r. split; [exact Er |].
           unfold cancelled_orders_df. apply filter_In. split; [exact Hr |].
           apply is_cancelled_iff. exact Hc.
      * split.
        -- apply Forall_forall. intros p Hin.
           destruct (Hrow p Hin) as (Hk & Hn). split; [exact Hn |].
           rewrite Hn. apply in_map_iff in Hk. destruct Hk as (r & Er & Hr).
           assert (Hin' : In r (orders_of_state (fst p) df)).
           { unfold orders_of_state. apply filter_In. split; [exact Hr |].
             rewrite Er. apply String.eqb_refl. }
           destruct (orders_of_state (fst p) df); [contradiction | simpl; lia].
        -- unfold top_cancellations, head. rewrite length_firstn. lia.
Qed.

(** ** State by category tables *)

Lemma StronglySorted_filter {A : Type} (R : A -> A -> Prop) (p : A -> bool)
    (l : list A) :
  StronglySorted R l -> StronglySorted R (filter p l).
Proof.
  induction 1 as [|a l Hs IH Hall]; simpl; [constructor |].
  destruct (p a); [| exact IH]. constructor; [exact IH |].
  apply Forall_forall. intros y Hy. apply filter_In in Hy.
  rewrite Forall_forall in Hall. apply Hall. tauto.
Qed.

Lemma StronglySorted_impl_In {A : Type} (R R' : A -> A -> Prop) (l : list A) :
  (forall x y, In x l -> In y l -> R x y -> R' x y) ->
  StronglySorted R l -> StronglySorted R' l.
Proof.
  intros Himp Hs. induction Hs as [|a l Hs IH Hall]; constructor.
  - apply IH. intros x y Hx Hy. apply Himp; right; assumption.
  - apply Forall_forall. intros y Hy. rewrite Forall_forall in Hall.
    apply Himp; [left; reflexivity | right; exact Hy | apply Hall; exact Hy].
Qed.

Lemma StronglySorted_app_inv {A : Type} (R : A -> A -> Prop) (l1 l2 : list A) :
  StronglySorted R (l1 ++ l2) ->
  forall x y, In x l1 -> In y l2 -> R x y.
Proof.
  induction l1 as [|a l1 IH]; simpl; intros Hs x y Hx Hy; [contradiction |].
  inversion Hs as [|? ? Hs' Hall]; subst.
  destruct Hx as [<- | Hx].
  - rewrite Forall_forall in Hall. apply Hall. apply in_or_app. right. exact Hy.
  - apply IH; assumption.
Qed.

Lemma NoDup_firstn {A : Type} (n : nat) (l : list A) : NoDup l -> NoDup (firstn n l).
Proof.
  intros Hnd. revert n. induction Hnd as [|a l Hna Hnd IH]; intros [|n]; simpl;
    try constructor.
  - intros Hin. apply Hna. exact (In_firstn _ _ _ Hin).
  - apply IH.
Qed.

Lemma position_inj (l : list string) (a b : string) :
  In a l -> In b l -> position a l = position b l -> a = b.
Proof.
  intros Ha Hb E.
  rewrite <- (nth_position_map (fun x => x) l a EmptyString Ha).
  rewrite <- (nth_position_map (fun x => x) l b EmptyString Hb).
  rewrite E. reflexivity.
Qed.

Lemma Forall2_map_In {A B : Type} (P : A -> B -> Prop) (f : A -> B) (l : list A) :
  (forall x, In x l -> P x (f x)) -> Forall2 P l (map f l).
Proof.
  induction l as [|x t IH]; simpl; intros Hall; constructor.
  - apply Hall. left. reflexivity.
  - apply IH. intros y Hy. apply Hall. right. exact Hy.
Qed.

Lemma klt_pair_same (s c1 c2 : string) : klt (s, c1) (s, c2) -> klt c1 c2.
Proof.
  unfold klt. simpl. unfold cmp_pair. simpl.
  change (String_as_OT.compare s s) with (cmp s s). rewrite cmp_refl. tauto.
Qed.

(** The rows of the long table kept for the pivot and the stacked bars. *)
Lemma state_category_orders_filtered_sorted (N : nat) (view : DataFrame) :
  StronglySorted (fun p q => klt (fst p) (fst q))
    (state_category_orders_filtered N view).
Proof.
  apply StronglySorted_filter.
  apply (groupby_size_sorted (fun r => (Shipping_State r, Product_Category r)) view).
Qed.

Lemma heatmap_lookup (N : nat) (view : DataFrame) (s c : string) :
  In s (top_n_states_list N view) ->
  fill0 (lookup (s, c) (state_category_orders_filtered N view))
  = List.length (orders_of_cell s c view).
Proof.
  intros Ht.
  destruct (lookup (s, c) (state_category_orders_filtered N view)) as [n|] eqn:E;
    simpl.
  - apply lookup_Some, state_category_orders_filtered_In in E. tauto.
  - destruct (orders_of_cell s c view) as [|r t] eqn:Eo; [reflexivity |].
    exfalso.
    apply (lookup_None _ _ (List.length (orders_of_cell s c view))) in E.
    apply E. apply state_category_orders_filtered_In.
    repeat split; [exact Ht |]. rewrite Eo. discriminate.
Qed.

(** X13. The table of the stacked bar chart, which the callback returns for
    the "heatmap" slot, holds the rows of the long state by category table
    of the top-N states, brought into the order of the state ranking.  A row
    counts the orders of its state and category, and there is no row without
    orders. *)
Theorem stacked_bar_order (N : nat) (view : DataFrame) :
  let top := top_n_states_list N view in
  let rows := stacked_bar_data N view in
  Permutation rows (state_category_orders_filtered N view) /\
  StronglySorted
    (fun p q => (position (fst (fst p)) top <= position (fst (fst q)) top)%nat)
    rows /\
  Forall (fun p =>
            In (fst (fst p)) top /\
            snd p = List.length (orders_of_cell (fst (fst p)) (snd (fst p)) view) /\
            (1 <= snd p)%nat)
         rows.
Proof.
  intros top rows.
  assert (Hperm : Permutation rows (state_category_orders_filtered N view))
    by apply sort_values_asc_Permutation.
  assert (Hrow : forall p, In p rows ->
            In (fst (fst p)) top /\
            orders_of_cell (fst (fst p)) (snd (fst p)) view <> [] /\
            snd p = List.length (orders_of_cell (fst (fst p)) (snd (fst p)) view)).
  { intros [[s c] n] Hin. apply (Permutation_in _ Hperm) in Hin.
    apply state_category_orders_filtered_In in Hin. exact Hin. }
  split; [exact Hperm |]. split.
  - eapply StronglySorted_impl; [| apply sort_values_asc_le].
    intros p q Hle. apply Qnat_le_inv. exact Hle.
  - apply Forall_forall. intros p Hin.
    destruct (Hrow p Hin) as (Ht & Hne & Hn). repeat split; try assumption.
    rewrite Hn. destruct (orders_of_cell _ _ view); [contradiction | simpl; lia].
Qed.

(** X14. Every row of the pivot adds up to the number of orders of its
    state in the view the pivot is taken from: within the top-N states no
    order is lost or counted twice. *)
Theorem heatmap_row_sums (N : nat) (view : DataFrame) :
  Forall2 (fun s row => total row = List.length (orders_of_state s view))
          (index (heatmap_data N view)) (values (heatmap_data N view)).
Proof.
  pose proof (heatmap_index_In N view) as Hidx.
  pose proof (heatmap_columns_In N view) as Hcol.
  assert (Hnd : NoDup (columns (heatmap_data N view)))
    by apply unique_sorted_NoDup.
  unfold heatmap_data in *. cbn [fillna pivot index columns values] in *.
  rewrite map_map. apply Forall2_map_In. intros s Hs.
  apply Hidx in Hs. rewrite map_map.
  erewrite map_ext; [| intros c; apply (heatmap_lookup N view s c Hs)].
  apply (pair_rows_total Shipping_State Product_Category view s _ Hnd).
  intros r Hr Er. apply Hcol. exists r. rewrite Er. auto.
Qed.

(** X15. The states of the ranking are distinct states of the view, N of
    them, or all if the view has fewer; and they are the busiest: a state of
    the view left out of the list has no more orders than any state in
    it. *)
Theorem top_states_dominate (N : nat) (view : DataFrame) :
  let top := top_n_states_list N view in
  NoDup top /\
  List.length top = Nat.min N (List.length (unique_sorted (map Shipping_State view))) /\
  (forall s, In s top -> exists r, In r view /\ Shipping_State r = s) /\
  (forall s s',
      In s top ->
      (exists r, In r view /\ Shipping_State r = s') ->
      ~ In s' top ->
      (List.length (orders_of_state s' view)
       <= List.length (orders_of_state s view))%nat).
Proof.
  intros top. unfold top.
  pose proof (sort_values_desc_Permutation (fun p : string * nat => Qnat (snd p))
                (total_orders_per_state view)) as Hperm.
  fold (top_states view) in Hperm.
  split; [| split; [| split]].
  - unfold top_n_states_list, head. rewrite <- firstn_map. apply NoDup_firstn.
    apply (Permutation_NoDup (Permutation_map fst (Permutation_sym Hperm))).
    unfold total_orders_per_state. rewrite groupby_size_keys.
    apply unique_sorted_NoDup.
  - unfold top_n_states_list, head. rewrite length_map, length_firstn.
    rewrite (Permutation_length Hperm). unfold total_orders_per_state.
    rewrite <- (groupby_size_keys Shipping_State view), length_map. reflexivity.
  - apply top_n_states_In.
  - intros s s' Hs (r' & Hr' & Es') Hout.
    assert (Hsorted : StronglySorted
              (fun p q : string * nat => (Qnat (snd q) <= Qnat (snd p))%Q)
              (top_states view))
      by apply sort_values_desc_le.
    rewrite <- (firstn_skipn N (top_states view)) in Hsorted.
    unfold top_n_states_list, head in Hs, Hout.
    apply in_map_iff in Hs. destruct Hs as ([s0 n] & E0 & Hin). simpl in E0. subst s0.
    assert (Hin' : In (s', List.length (orders_of_state s' view)) (top_states view)).
    { apply (Permutation_in _ (Permutation_sym Hperm)).
      apply groupby_size_In. rewrite group_rows_string. split; [| reflexivity].
      apply in_map_iff. exists r'. auto. }
    rewrite <- (firstn_skipn N (top_states view)) in Hin'.
    apply in_app_or in Hin'. destruct Hin' as [Hf | Hk].
    + exfalso. apply Hout. apply in_map_iff.
      exists (s', List.length (orders_of_state s' view)). auto.
    + pose proof (StronglySorted_app_inv _ _ _ Hsorted _ _ Hin Hk) as Hle.
      cbn [snd] in Hle. apply Qnat_le_inv in Hle.
      apply In_firstn in Hin. apply (Permutation_in _ Hperm) in Hin.
      apply groupby_size_In in Hin. destruct Hin as (_ & ->).
      rewrite group_rows_string in Hle. exact Hle.
Qed.

(** ** Totals across the tables of a request *)

Lemma sum_of_cons (x : Q) (l : list Q) : sum_of (x :: l) = (x + sum_of l)%Q.
Proof. reflexivity. Qed.

Lemma col_sum_cons (r : Order) (df : DataFrame) :
  col_sum (r :: df) = (amount r + col_sum df)%Q.
Proof. reflexivity. Qed.

Section GroupSums.
Context {K : Type} `{KeyOrdLaws K}.

Lemma pick_sum (x : K) (a : Q) (l : list K) :
  NoDup l -> In x l ->
  (sum_of (map (fun k => if keqb x k then a else 0%Q) l) == a)%Q.
Proof.
  induction 1 as [|b l Hnb Hnd IH]; simpl; [contradiction |].
  intros [-> | Hin].
  - rewrite keqb_refl.
    assert (E : (sum_of (map (fun k => if keqb x k then a else 0%Q) l) == 0)%Q).
    { clear IH Hnd. induction l as [|c l IHl]; simpl; [reflexivity |].
      rewrite keqb_neq.
      - rewrite IHl; [ring |]. intros Hx. apply Hnb. right. exact Hx.
      - intros ->. apply Hnb. left. reflexivity. }
    rewrite E. ring.
  - rewrite keqb_neq; [rewrite (IH Hin); ring |].
    intros ->. contradiction.
Qed.

Lemma group_sums_cons (key : Order -> K) (r : Order) (t : DataFrame) (l : list K) :
  (sum_of (map (fun k => col_sum (group_rows key (r :: t) k)) l)
   == sum_of (map (fun k => if keqb (key r) k then amount r else 0%Q) l)
      + sum_of (map (fun k => col_sum (group_rows key t k)) l))%Q.
Proof.
  induction l as [|k l IH]; [simpl; ring |].
  cbn [map]. rewrite !sum_of_cons, IH. unfold group_rows. cbn [filter].
  destruct (keqb (key r) k); rewrite ?col_sum_cons; ring.
Qed.

(** The sums of the groups add up to the sum of the frame. *)
Lemma group_sums_sum (key : Order -> K) (df : DataFrame) (ks : list K) :
  NoDup ks -> (forall r, In r df -> In (key r) ks) ->
  (sum_of (map (fun k => col_sum (group_rows key df k)) ks) == col_sum df)%Q.
Proof.
  intros Hnd. induction df as [|r t IH]; intros Hcov.
  - simpl. clear Hnd Hcov. induction ks as [|k ks' IHk]; simpl; [reflexivity |].
    rewrite IHk. ring.
  - rewrite group_sums_cons, IH.
    + rewrite pick_sum; [rewrite col_sum_cons; ring | exact Hnd |].
      apply Hcov. left. reflexivity.
    + intros r' Hr'. apply Hcov. right. exact Hr'.
Qed.

Lemma agg_sales_counts (key : Order -> K) (df : DataFrame) :
  total (map sales_Order_ID (agg_sales key df)) = List.length df.
Proof.
  unfold agg_sales, groupby. rewrite !map_map. cbn [sales_Order_ID fst snd].
  apply (group_sizes_sum key df).
  - apply unique_sorted_NoDup.
  - intros r Hr. apply unique_sorted_In, in_map. exact Hr.
Qed.

Lemma agg_sales_amounts (key : Order -> K) (df : DataFrame) :
  (sum_of (map sales_Sale_Amount (agg_sales key df)) == col_sum df)%Q.
Proof.
  unfold agg_sales, groupby. rewrite !map_map. cbn [sales_Sale_Amount fst snd].
  apply (group_sums_sum key df).
  - apply unique_sorted_NoDup.
  - intros r Hr. apply unique_sorted_In, in_map. exact Hr.
Qed.

End GroupSums.

Lemma daily_sales_counts (filtered : DataFrame) :
  map daily_Order_ID (daily_sales filtered)
  = map sales_Order_ID (daily_groups filtered).
Proof.
  rewrite <- (daily_sales_groups filtered), map_map. reflexivity.
Qed.

(** X16. The daily series of a request accounts for every order of the
    filtered frame: its daily order counts add up to the total number of
    orders the KPI card shows, and its daily revenues add up to the revenue
    of all filtered orders, the cancelled ones included. *)
Theorem daily_series_totals (st : Store)
    (start_date end_date : option Z) (selected_category : option string) :
  exists out st',
    update_dashboard st start_date end_date selected_category = Some (out, st') /\
    total (map daily_Order_ID (out_daily_chart out))
    = total_orders (out_kpi_cards out) /\
    (sum_of (map daily_Sale_Amount (out_daily_chart out))
     == sum_of (map amount
                  (filtered_data (amazon_sales_data st)
                     start_date end_date selected_category)))%Q.
Proof.
  destruct (update_dashboard_returns st start_date end_date selected_category)
    as (out & st' & E).
  exists out, st'. split; [exact E |].
  pose proof (update_dashboard_inv_more _ _ _ _ _ _ E) as (Ek & _).
  apply update_dashboard_inv in E. destruct E as (Ed & _).
  rewrite kpi_cards_value in Ek. injection Ek as Ek.
  rewrite Ek, Ed. cbn [total_orders]. unfold len. clear Ek Ed.
  set (filtered := filtered_data _ _ _ _).
  rewrite daily_sales_counts, daily_sales_revenue. unfold daily_groups. split.
  - apply agg_sales_counts.
  - rewrite agg_sales_amounts, col_sum_sum_of. reflexivity.
Qed.

Lemma promo_impact_sales (filtered_nc : DataFrame) :
  (sum_of (map promo_Total_Sales (promo_impact filtered_nc)) == col_sum filtered_nc)%Q.
Proof.
  unfold promo_impact, groupby. rewrite !map_map. cbn [promo_Total_Sales fst snd].
  apply (group_sums_sum has_promo filtered_nc).
  - apply unique_sorted_NoDup.
  - intros r Hr. apply unique_sorted_In, in_map. exact Hr.
Qed.

(** X17. The fulfilment split and the promotion table of a request each
    account for the whole non-cancelled view: the order counts of the
    fulfilment types add up to its size, and the revenues of the fulfilment
    types, like the sales of the promotion partitions, add up to the total
    revenue of the KPI card. *)
Theorem revenue_splits_add_up (st : Store)
    (start_date end_date : option Z) (selected_category : option string) :
  exists out st',
    update_dashboard st start_date end_date selected_category = Some (out, st') /\
    total (map sales_Order_ID (out_fulfillment_chart out))
    = List.length (filtered_non_cancelled (amazon_sales_data st)
                     start_date end_date selected_category) /\
    (sum_of (map sales_Sale_Amount (out_fulfillment_chart out))
     == total_revenue (out_kpi_cards out))%Q /\
    (sum_of (map promo_Total_Sales (out_promo_chart out))
     == total_revenue (out_kpi_cards out))%Q.
Proof.
  destruct (update_dashboard_returns st start_date end_date selected_category)
    as (out & st' & E).
  exists out, st'. split; [exact E |].
  pose proof (update_dashboard_inv_more _ _ _ _ _ _ E) as (Ek & Ef & _).
  apply update_dashboard_inv in E. destruct E as (_ & _ & _ & _ & Ep & _).
  rewrite kpi_cards_value in Ek. injection Ek as Ek.
  rewrite Ek, Ef, Ep. cbn [total_revenue]. unfold fulfillment_data.
  split; [apply agg_sales_counts |].
  split; [apply agg_sales_amounts | apply promo_impact_sales].
Qed.

(** ** The B2B comparison *)

(** X18. The B2B comparison has at most the two slices B2C and B2B, in
    that order, one for each kind that occurs among the non-cancelled
    orders; the slices are labelled after their kind, and their order counts
    and revenues add up to the size and the revenue of the non-cancelled
    table. *)
Theorem b2b_b2c_split (st : Store) :
  let rows := create_b2b_b2c_comparison st in
  StronglySorted klt (map b2b_Business_to_Business rows) /\
  (forall b, In b (map b2b_Business_to_Business rows) <->
             exists r, In r (non_cancelled_orders st) /\ Business_to_Business r = b) /\
  Forall (fun row =>
            b2b_Business_Type row
            = (if b2b_Business_to_Business row then "B2B" else "B2C")%string)
         rows /\
  total (map b2b_Order_ID rows) = List.length (non_cancelled_orders st) /\
  (sum_of (map b2b_Sale_Amount rows) == col_sum (non_cancelled_orders st))%Q.
Proof.
  intros rows. unfold rows, create_b2b_b2c_comparison.
  rewrite !map_map. cbn [b2b_Business_to_Business b2b_Order_ID b2b_Sale_Amount].
  split; [| split; [| split; [| split]]].
  - change (fun x : SalesRow bool => sales_key x) with (@sales_key bool).
    rewrite agg_sales_keys. apply unique_sorted_StronglySorted.
  - intros b. change (fun x : SalesRow bool => sales_key x) with (@sales_key bool).
    rewrite agg_sales_keys, unique_sorted_In, in_map_iff.
    split; intros (r & A & B); exists r; auto.
  - apply Forall_forall. intros row Hin.
    apply in_map_iff in Hin. destruct Hin as (g & <- & _). reflexivity.
  - apply (agg_sales_counts Business_to_Business).
  - apply (agg_sales_amounts Business_to_Business).
Qed.

(** ** The monthly chart *)

Lemma value_count_length (c : string) (df : DataFrame) :
  List.length (filter (String.eqb c) (map Product_Category df))
  = List.length (orders_of_category c df).
Proof.
  rewrite filter_map_comm, length_map. unfold orders_of_category. f_equal.
  apply filter_ext. intros r. apply String.eqb_sym.
Qed.

Lemma nlargest_value_counts_Permutation (l : list string) :
  Permutation
    (rev (insertion_argsort (fun p : string * nat => Qnat (snd p))
            (rev (value_counts l))))
    (map (fun k => (k, List.length (filter (String.eqb k) l))) (unique l)).
Proof.
  unfold value_counts.
  rewrite <- Permutation_rev, insertion_argsort_Permutation, <- Permutation_rev.
  apply sort_values_desc_Permutation.
Qed.

(** X19. The categories of the monthly chart are distinct categories of the
    table, two of them, or all if the table has fewer; and they are the
    largest ones: a category left out has no more orders than any of
    them. *)
Theorem top_categories_largest (base : DataFrame) :
  let top := top_categories base in
  NoDup top /\
  List.length top = Nat.min 2 (List.length (category_options base)) /\
  (forall c, In c top -> exists r, In r base /\ Product_Category r = c) /\
  (forall c c',
      In c top ->
      (exists r, In r base /\ Product_Category r = c') ->
      ~ In c' top ->
      (List.length (orders_of_category c' base)
       <= List.length (orders_of_category c base))%nat).
Proof.
  intros top. unfold top. clear top.
  set (l := map Product_Category base).
  set (sorted := rev (insertion_argsort (fun p : string * nat => Qnat (snd p))
                        (rev (value_counts l)))).
  pose proof (nlargest_value_counts_Permutation l) as Hperm. fold sorted in Hperm.
  assert (Hmem : forall p, In p sorted ->
            In (fst p) l /\ snd p = List.length (orders_of_category (fst p) base)).
  { intros p Hp. apply (Permutation_in _ Hperm), in_map_iff in Hp.
    destruct Hp as (k & <- & Hk). cbn [fst snd].
    apply (proj1 (unique_In _ _)) in Hk.
    split; [exact Hk | apply value_count_length]. }
  assert (Hsorted : StronglySorted
            (fun p q : string * nat => (Qnat (snd q) <= Qnat (snd p))%Q) sorted)
    by apply StronglySorted_rev, insertion_argsort_le.
  unfold top_categories, nlargest, head. fold l sorted.
  split; [| split; [| split]].
  - rewrite <- firstn_map. apply NoDup_firstn.
    apply (Permutation_NoDup (Permutation_map fst (Permutation_sym Hperm))).
    rewrite map_map. cbn [fst]. rewrite map_id. apply unique_NoDup.
  - rewrite length_map, length_firstn, (Permutation_length Hperm), length_map.
    reflexivity.
  - intros c Hc. apply in_map_iff in Hc. destruct Hc as (p & <- & Hin).
    destruct (Hmem _ (In_firstn _ _ _ Hin)) as (Hcl & _).
    apply in_map_iff in Hcl. destruct Hcl as (r & Er & Hr). exists r. auto.
  - intros c c' Hc (r' & Hr' & Ec') Hout.
    apply in_map_iff in Hc. destruct Hc as ([c0 n] & E0 & Hin). simpl in E0. subst c0.
    pose proof (Hmem _ (In_firstn _ _ _ Hin)) as (_ & Hn). cbn [fst snd] in Hn.
    assert (Hin' : In (c', List.length (orders_of_category c' base)) sorted).
    { apply (Permutation_in _ (Permutation_sym Hperm)), in_map_iff.
      exists c'. split; [f_equal; apply value_count_length |].
      apply unique_In, in_map_iff. exists r'. auto. }
    rewrite <- (firstn_skipn 2 sorted) in Hin', Hsorted.
    apply in_app_or in Hin'. destruct Hin' as [Hf | Hk].
    + exfalso. apply Hout. apply in_map_iff.
      exists (c', List.length (orders_of_category c' base)). auto.
    + pose proof (StronglySorted_app_inv _ _ _ Hsorted _ _ Hin Hk) as Hle.
      cbn [snd] in Hle. apply Qnat_le_inv in Hle.
      rewrite <- Hn. exact Hle.
Qed.

Lemma top_categories_set_Month_Name (base : DataFrame) :
  top_categories (map set_Month_Name base) = top_categories base.
Proof.
  unfold top_categories.
  rewrite (map_key_set_Month_Name Product_Category base (fun r => eq_refl)).
  reflexivity.
Qed.

(** The frame the monthly table is grouped from, traced back to the base
    table of the store. *)
Lemma monthly_frame (base : DataFrame) :
  filter Month_Name_notna
    (filter (fun r => isin (Product_Category r)
                        (top_categories (map set_Month_Name base)))
            (map set_Month_Name base))
  = map set_Month_Name
      (filter (fun r => isin (Product_Category r) (top_categories base)) base).
Proof.
  rewrite top_categories_set_Month_Name, filter_map_comm, filter_map_comm.
  f_equal. cbn [set_Month_Name Product_Category Month_Name_notna Month_Name].
  apply filter_all. intros r _. reflexivity.
Qed.

Lemma monthly_pair_rows (base : DataFrame) (m c : string) :
  In c (top_categories base) ->
  List.length
    (pair_rows Month_Name_value Product_Category m c
       (map set_Month_Name
          (filter (fun r => isin (Product_Category r) (top_categories base)) base)))
  = List.length (orders_of_month m c base).
Proof.
  intros Hc. unfold pair_rows, orders_of_month.
  rewrite filter_map_comm, length_map, filter_filter. f_equal.
  apply filter_ext. intros r.
  cbn [set_Month_Name Month_Name_value Month_Name Product_Category].
  destruct (String.eqb (Product_Category r) c) eqn:E.
  - apply String.eqb_eq in E. rewrite E, (proj2 (isin_In _ _) Hc). reflexivity.
  - rewrite !andb_false_r. reflexivity.
Qed.

(** X20. The monthly chart is taken from the unfiltered base table.  Its
    table has a row for each month name and top category with at least one
    order, holding the number of those orders; the rows follow the calendar
    order of the months, and the counts add up to the number of orders of
    the top categories. *)
Theorem monthly_chart_rows (st : Store) :
  let base := amazon_sales_data st in
  let rows := order_fig_data st in
  total (map snd rows)
  = List.length (filter (fun r => isin (Product_Category r) (top_categories base))
                        base) /\
  StronglySorted
    (fun p q =>
       (position (fst (fst p)) month_order <= position (fst (fst q)) month_order)%nat)
    rows /\
  Forall (fun p =>
            In (snd (fst p)) (top_categories base) /\
            snd p = List.length (orders_of_month (fst (fst p)) (snd (fst p)) base) /\
            (1 <= snd p)%nat)
         rows.
Proof.
  intros base rows. unfold rows, order_fig_data, monthly_category_sales.
  fold base. rewrite monthly_frame.
  set (df := map set_Month_Name
               (filter (fun r => isin (Product_Category r) (top_categories base)) base)).
  set (long := groupby_size (fun r => (Month_Name_value r, Product_Category r)) df).
  assert (Hperm : Permutation
            (sort_values_asc
               (fun p : string * string * nat =>
                  Qnat (position (fst (fst p)) month_order)) long) long)
    by apply sort_values_asc_Permutation.
  split; [| split].
  - rewrite (total_Permutation _ _ (Permutation_map snd Hperm)).
    unfold long. rewrite groupby_size_total. unfold df. apply length_map.
  - eapply StronglySorted_impl; [| apply sort_values_asc_le].
    intros p q Hle. apply Qnat_le_inv. exact Hle.
  - apply Forall_forall. intros [[m c] n] Hin. cbn [fst snd].
    apply (Permutation_in _ Hperm), groupby_size_pair_In in Hin.
    destruct Hin as (Hne & ->).
    assert (Hc : In c (top_categories base)).
    { destruct (pair_rows Month_Name_value Product_Category m c df) as [|r t] eqn:E;
        [contradiction |].
      assert (Hr : In r (pair_rows Month_Name_value Product_Category m c df))
        by (rewrite E; left; reflexivity).
      apply pair_rows_In in Hr. destruct Hr as (Hr & _ & Ec).
      unfold df in Hr. apply in_map_iff in Hr. destruct Hr as (r0 & <- & Hr0).
      apply filter_In in Hr0. destruct Hr0 as (_ & Hi).
      apply isin_In in Hi. simpl in Ec. rewrite <- Ec. exact Hi. }
    split; [exact Hc |].
    unfold df in Hne |- *. rewrite (monthly_pair_rows base m c Hc).
    split; [reflexivity |].
    rewrite <- (monthly_pair_rows base m c Hc).
    destruct (pair_rows _ _ m c _); [contradiction | simpl; lia].
Qed.

(** ** Narrowing a request *)

(** X21. Narrowing the date range, with the category left as it is, only
    removes orders: whatever the narrower range selects, the wider range
    selects too. *)
Theorem narrower_range_selects_less (base : DataFrame) (s e s' e' : Z)
    (selected_category : option string) (r : Order) :
  s <= s' -> e' <= e ->
  In r (filtered_data base (Some s') (Some e') selected_category) ->
  In r (filtered_data base (Some s) (Some e) selected_category).
Proof.
  intros Hs He. unfold filtered_data, filter_category, filter_dates.
  destruct selected_category as [c|];
    [destruct (truthy (Some c) && negb (String.eqb c "All Categories")) |];
    rewrite ?filter_In, ?andb_true_iff, ?Z.leb_le; intuition lia.
Qed.

Lemma narrower_range_selects_less_witness :
  1 <= 3 /\ 5 <= 9 /\
  In (order_on 4) (filtered_data [order_on 4] (Some 3) (Some 5) None) /\
  In (order_on 4) (filtered_data [order_on 4] (Some 1) (Some 9) None).
Proof.
  assert (Hin : In (order_on 4) (filtered_data [order_on 4] (Some 3) (Some 5) None))
    by (left; reflexivity).
  repeat split; try lia; [exact Hin |].
  apply (narrower_range_selects_less [order_on 4] 1 9 3 5 None (order_on 4));
    [lia | lia | exact Hin].
Defined.

Lemma col_sum_partition (df : DataFrame) :
  (col_sum df == col_sum (not_cancelled df) + col_sum (filter is_cancelled df))%Q.
Proof.
  unfold not_cancelled. induction df as [|r t IH]; [simpl; ring |].
  cbn [filter]. destruct (is_cancelled r); cbn [negb];
    rewrite !col_sum_cons, IH; ring.
Qed.

(** X22. The revenue of the daily series and the revenue of the KPI card
    differ by the cancelled orders: the daily revenues of a request add up
    to the KPI total revenue plus the amounts of the cancelled orders of the
    filtered frame. *)
Theorem daily_revenue_includes_cancelled (st : Store)
    (start_date end_date : option Z) (selected_category : option string) :
  exists out st',
    update_dashboard st start_date end_date selected_category = Some (out, st') /\
    (sum_of (map daily_Sale_Amount (out_daily_chart out))
     == total_revenue (out_kpi_cards out)
        + sum_of (map amount
                    (filter is_cancelled
                       (filtered_data (amazon_sales_data st)
                          start_date end_date selected_category))))%Q.
Proof.
  destruct (update_dashboard_returns st start_date end_date selected_category)
    as (out & st' & E).
  exists out, st'. split; [exact E |].
  pose proof (update_dashboard_inv_more _ _ _ _ _ _ E) as (Ek & _).
  apply update_dashboard_inv in E. destruct E as (Ed & _).
  rewrite kpi_cards_value in Ek. injection Ek as Ek.
  rewrite Ek, Ed. cbn [total_revenue]. clear Ek Ed.
  set (filtered := filtered_data _ _ _ _).
  rewrite daily_sales_revenue. unfold daily_groups.
  rewrite agg_sales_amounts, <- col_sum_sum_of. apply col_sum_partition.
Qed.

End Properties.

(** * Runs on sample tables

    The sample tables are short, so that every sort in these runs is the
    insertion sort and the runs are the same for every quicksort. *)

#[local] Existing Instance insertion_only.

(** C6, as stated, fails: categories "A" (one order) and "B" (two orders)
    have the same revenue, and the ranking does not put the one with more
    orders first.  The ranking sorts two rows, which no quicksort
    partitions ([category_sales_tied_revenue]). *)
Lemma ranking_ties_not_by_order_count :
  ~ StronglySorted rank_order_by_count (category_sales tied_revenue).
Proof.
  assert (E : category_sales tied_revenue
              = [ {| sales_key := "A"%string; sales_Order_ID := 1;
                     sales_Sale_Amount := 10 |};
                  {| sales_key := "B"%string; sales_Order_ID := 2;
                     sales_Sale_Amount := 10 |} ])
    by (vm_compute; reflexivity).
  rewrite E. intros Hs.
  inversion Hs as [|? ? _ Hall]; subst.
  inversion Hall as [|? ? Hab _]; subst.
  unfold rank_order_by_count in Hab. cbn in Hab.
  destruct Hab as [Hlt | [_ [Hc | [Hc _]]]].
  - exact (Qlt_irrefl _ Hlt).
  - lia.
  - discriminate.
Qed.

(** C7, as stated, fails: state "B" has more orders than state "A" and
    leads the ranking, yet the rows of the pivot are "A", "B", whatever the
    quicksort ([heatmap_rows_of_ranked_states]). *)
Lemma heatmap_rows_not_in_rank_order :
  ~ (index (heatmap_data 15 ranked_states) = top_n_states_list 15 ranked_states).
Proof.
  vm_compute. discriminate.
Qed.

Lemma cancel_chart_no_cancellations_witness :
  exists out st',
    update_dashboard (load_and_preprocess_data two_categories) None None None
      = Some (out, st') /\
    out_cancel_chart out = NoCancellationData /\
    forall final_data, out_cancel_chart out <> CancelVolume final_data.
Proof.
  apply (cancel_chart_no_cancellations (load_and_preprocess_data two_categories)
           None None None).
  intros r Hin. simpl in Hin.
  destruct Hin as [<- | [<- | []]]; simpl; discriminate.
Defined.

(** C10, as stated, fails: on the first request after loading, the base
    table after the request is not the base table before it (the request
    sets the [Month_Name] column). *)
Lemma base_table_mutated_by_request :
  ~ (forall out st',
        update_dashboard (load_and_preprocess_data [order_on 1]) None None None
          = Some (out, st') ->
        amazon_sales_data st' = amazon_sales_data (load_and_preprocess_data [order_on 1])).
Proof.
  intros Hsame.
  destruct (update_dashboard_returns (load_and_preprocess_data [order_on 1])
              None None None) as (out & st' & E).
  specialize (Hsame out st' E).
  apply update_dashboard_inv in E. destruct E as (_ & _ & _ & _ & _ & Eb & _).
  rewrite Eb in Hsame. simpl in Hsame. discriminate Hsame.
Qed.

Lemma empty_selection_bundle_witness :
  exists out st',
    update_dashboard (load_and_preprocess_data [order_on 4]) (Some 5) (Some 3) None
      = Some (out, st') /\
    out_kpi_cards out
      = {| total_orders := 0; total_revenue := 0;
           cancellation_rate := 0; avg_order_value := 0 |} /\
    out_daily_chart out = [] /\
    out_category_chart out = [] /\
    out_fulfillment_chart out = [] /\
    out_geo_chart out = [] /\
    out_cancel_chart out = NoCancellationData /\
    out_promo_chart out = [].
Proof.
  apply (empty_selection_bundle (load_and_preprocess_data [order_on 4])
           (Some 5) (Some 3) None).
  reflexivity.
Defined.

Lemma session_invariants_witness :
  reachable two_categories (load_and_preprocess_data two_categories) /\
  exists out st',
    update_dashboard (load_and_preprocess_data two_categories)
      None None (Some "Set"%string) = Some (out, st') /\
    out_heatmap_data out = heatmap_data 15 (not_cancelled two_categories) /\
    out_fig_stacked_bar out = stacked_bar_data 15 (not_cancelled two_categories).
Proof.
  assert (Hr : reachable two_categories (load_and_preprocess_data two_categories))
    by constructor.
  split; [exact Hr |].
  exact (proj2 (proj2 (session_invariants two_categories _ None None
                         (Some "Set"%string) Hr))).
Defined.

Lemma unfiltered_request_matches_builders_witness :
  reachable two_categories (load_and_preprocess_data two_categories) /\
  exists out st',
    update_dashboard (load_and_preprocess_data two_categories)
      None None (Some "All Categories"%string) = Some (out, st') /\
    Some (out_kpi_cards out)
      = create_kpi_cards (load_and_preprocess_data two_categories) /\
    out_daily_chart out
      = create_daily_sales_chart (load_and_preprocess_data two_categories) /\
    out_category_chart out
      = create_category_sales_chart (load_and_preprocess_data two_categories) /\
    out_fulfillment_chart out
      = create_fulfillment_pie_chart (load_and_preprocess_data two_categories) /\
    out_geo_chart out
      = create_geographic_sales_map (load_and_preprocess_data two_categories) /\
    out_promo_chart out
      = create_promo_impact_chart (load_and_preprocess_data two_categories).
Proof.
  assert (Hr : reachable two_categories (load_and_preprocess_data two_categories))
    by constructor.
  split; [exact Hr |].
  exact (unfiltered_request_matches_builders two_categories _ Hr).
Defined.

Lemma cancel_volume_rows_witness :
  exists final_data categories,
    cancel_chart [order_of "Set" "KA" "Cancelled" 10 None;
                  order_of "Top" "KA" "Shipped" 10 None]
      = CancelVolume final_data /\
    Permutation final_data
      (map (cancelled_bar [order_of "Set" "KA" "Cancelled" 10 None;
                           order_of "Top" "KA" "Shipped" 10 None]) categories
       ++ map (not_cancelled_bar [order_of "Set" "KA" "Cancelled" 10 None;
                                  order_of "Top" "KA" "Shipped" 10 None]) categories).
Proof.
  destruct (cancel_volume_rows [order_of "Set" "KA" "Cancelled" 10 None;
                                order_of "Top" "KA" "Shipped" 10 None])
    as (final_data & categories & E & _ & _ & Hperm & _).
  - exists (order_of "Set" "KA" "Cancelled" 10 None).
    split; [left; reflexivity | reflexivity].
  - exists final_data, categories. split; [exact E | exact Hperm].
Defined.

Lemma create_cancellation_analysis_rows_witness :
  exists rows,
    create_cancellation_analysis
      (load_and_preprocess_data [order_of "Set" "KA" "Cancelled" 10 None;
                                 order_of "Top" "KA" "Shipped" 10 None])
      = CancelRates rows /\
    (List.length rows <= 10)%nat.
Proof.
  destruct (create_cancellation_analysis_rows
              (load_and_preprocess_data [order_of "Set" "KA" "Cancelled" 10 None;
                                         order_of "Top" "KA" "Shipped" 10 None]))
    as (rows & E & Hlen & _).
  - exists (order_of "Set" "KA" "Cancelled" 10 None).
    split; [left; reflexivity | reflexivity].
  - exists rows. split; [exact E | exact Hlen].
Defined.

Lemma top_states_dominate_witness :
  In "B"%string (top_n_states_list 1 ranked_states) /\
  ~ In "A"%string (top_n_states_list 1 ranked_states) /\
  (List.length (orders_of_state "A" ranked_states)
   <= List.length (orders_of_state "B" ranked_states))%nat.
Proof.
  assert (Hs : In "B"%string (top_n_states_list 1 ranked_states))
    by (left; reflexivity).
  assert (Hout : ~ In "A"%string (top_n_states_list 1 ranked_states))
    by (intros [E | []]; discriminate E).
  split; [exact Hs |]. split; [exact Hout |].
  apply (proj2 (proj2 (proj2 (top_states_dominate 1 ranked_states))) "B" "A"
           Hs)%string; [| exact Hout].
  exists (order_of "Set" "A" "Shipped" 10 None).
  split; [right; right; left; reflexivity | reflexivity].
Defined.

Lemma top_categories_largest_witness :
  In "B"%string (top_categories three_categories) /\
  ~ In "A"%string (top_categories three_categories) /\
  (List.length (orders_of_category "A" three_categories)
   <= List.length (orders_of_category "B" three_categories))%nat.
Proof.
  assert (Hc : In "B"%string (top_categories three_categories))
    by (vm_compute; auto).
  assert (Hout : ~ In "A"%string (top_categories three_categories))
    by (vm_compute; intros [E | [E | []]]; discriminate E).
  split; [exact Hc |]. split; [exact Hout |].
  apply (proj2 (proj2 (proj2 (top_categories_largest three_categories))) "B" "A"
           Hc)%string; [| exact Hout].
  exists (order_of "A" "KA" "Shipped" 10 None).
  split; [right; left; reflexivity | reflexivity].
Defined.
